(** * games-site frontend: [Providers] and [JoinGameButton]

    A shallow embedding of [src/frontend/app/providers.tsx]: the provider
    composition, the join-game form and its submit handler, together with
    the properties the specification states about them.

    Conventions.
    - A JavaScript string is the list of its UTF-16 code units, each an
      [N].  [trim] removes WhiteSpace and LineTerminator code units from
      both ends; [toUpperCase] reads the string as code points (a high
      and a low surrogate in a row make one), maps each through the
      Unicode upper-case tables (version 14.0: UnicodeData and the
      unconditional mappings of SpecialCasing) and writes the code points
      back as code units.  String literals of the source are written
      [js "..."].
    - The error map [{ [key: string]: string }] is a [gmap string string];
      its keys and messages are literals of the source.
    - The async handler is a computation in a state-and-exception monad
      over the two [useState] cells that also records, in order, what the
      handler does to the outside.
    - JSX is a tree of elements with their props. *)

From Stdlib Require Import Ascii String List Bool Arith NArith Lia.
From stdpp Require Import base option list strings gmap.

Local Open Scope string_scope.
Local Open Scope list_scope.

(* ===================================================================== *)
(** ** String built-ins: [String.prototype.trim], [toUpperCase]          *)
(* ===================================================================== *)

Module JsString.

Section Alphabet.
Context {C : Type}.
(** [isWhiteSpace c]: [c] is WhiteSpace or LineTerminator.
    [toUpper c]: the upper-case mapping of [c] (a sequence: the full
    mapping may expand a character). *)
Variable isWhiteSpace : C -> bool.
Variable toUpper : C -> list C.

Fixpoint trimStart (l : list C) : list C :=
  match l with
  | [] => []
  | c :: l' => if isWhiteSpace c then trimStart l' else l
  end.

Fixpoint trimEnd (l : list C) : list C :=
  match l with
  | [] => []
  | c :: l' =>
      match trimEnd l' with
      | [] => if isWhiteSpace c then [] else [c]
      | r => c :: r
      end
  end.

Definition trim (l : list C) : list C := trimEnd (trimStart l).

Definition toUpperCase (l : list C) : list C := flat_map toUpper l.

(** A sequence is [tight] when neither end is white space. *)
Definition ink (o : option C) : Prop :=
  forall c, o = Some c -> isWhiteSpace c = false.

Definition tight (l : list C) : Prop := ink (head l) /\ ink (last l).

(** What the upper-case table has to satisfy: its output is left alone
    by a second pass, and a character that is not white space is mapped
    to a non-empty sequence free of white space. *)
Definition upper_stable : Prop :=
  forall c d, In d (toUpper c) -> toUpper d = [d].

Definition upper_keeps_ink : Prop :=
  forall c, isWhiteSpace c = false ->
    toUpper c <> [] /\ forall d, In d (toUpper c) -> isWhiteSpace d = false.

End Alphabet.

End JsString.

(* ===================================================================== *)
(** ** JavaScript strings as UTF-16 code units                           *)
(* ===================================================================== *)

(** A literal of the source, as code units. *)
Definition js (s : string) : list N :=
  map N_of_ascii (list_ascii_of_string s).

(** String concatenation, [a + b] and template literals. *)
Definition jsapp (a b : list N) : list N := a ++ b.

Declare Scope js_scope.
Infix "+:+" := jsapp (at level 60, right associativity) : js_scope.
Local Open Scope js_scope.

(** [a === b] on strings. *)
Fixpoint js_eqb (a b : list N) : bool :=
  match a, b with
  | [], [] => true
  | x :: a', y :: b' => N.eqb x y && js_eqb a' b'
  | _, _ => false
  end.

(** WhiteSpace (TAB, VT, FF, ZWNBSP and the Zs category) and
    LineTerminator (LF, CR, LS, PS). *)
Definition white_space : list N :=
  [ 9; 10; 11; 12; 13; 32; 160; 5760;
    8192; 8193; 8194; 8195; 8196; 8197; 8198; 8199; 8200; 8201; 8202;
    8232; 8233; 8239; 8287; 12288; 65279 ]%N.

Definition isWhiteSpace (u : N) : bool := existsb (N.eqb u) white_space.

(** Leading (high) and trailing (low) surrogates. *)
Definition is_high (u : N) : bool := ((55296 <=? u) && (u <=? 56319))%N.
Definition is_low (u : N) : bool := ((56320 <=? u) && (u <=? 57343))%N.

(** The upper-case mappings of the code points of the basic plane that
    have one, as code units. *)
Definition bmp_upper : list (N * list N) := [
  (97, [65]); (98, [66]); (99, [67]); (100, [68]); (101, [69]);
  (102, [70]); (103, [71]); (104, [72]); (105, [73]); (106, [74]);
  (107, [75]); (108, [76]); (109, [77]); (110, [78]); (111, [79]);
  (112, [80]); (113, [81]); (114, [82]); (115, [83]); (116, [84]);
  (117, [85]); (118, [86]); (119, [87]); (120, [88]); (121, [89]);
  (122, [90]); (181, [924]); (223, [83; 83]); (224, [192]); (225, [193]);
  (226, [194]); (227, [195]); (228, [196]); (229, [197]); (230, [198]);
  (231, [199]); (232, [200]); (233, [201]); (234, [202]); (235, [203]);
  (236, [204]); (237, [205]); (238, [206]); (239, [207]); (240, [208]);
  (241, [209]); (242, [210]); (243, [211]); (244, [212]); (245, [213]);
  (246, [214]); (248, [216]); (249, [217]); (250, [218]); (251, [219]);
  (252, [220]); (253, [221]); (254, [222]); (255, [376]); (257, [256]);
  (259, [258]); (261, [260]); (263, [262]); (265, [264]); (267, [266]);
  (269, [268]); (271, [270]); (273, [272]); (275, [274]); (277, [276]);
  (279, [278]); (281, [280]); (283, [282]); (285, [284]); (287, [286]);
  (289, [288]); (291, [290]); (293, [292]); (295, [294]); (297, [296]);
  (299, [298]); (301, [300]); (303, [302]); (305, [73]); (307, [306]);
  (309, [308]); (311, [310]); (314, [313]); (316, [315]); (318, [317]);
  (320, [319]); (322, [321]); (324, [323]); (326, [325]); (328, [327]);
  (329, [700; 78]); (331, [330]); (333, [332]); (335, [334]); (337, [336]);
  (339, [338]); (341, [340]); (343, [342]); (345, [344]); (347, [346]);
  (349, [348]); (351, [350]); (353, [352]); (355, [354]); (357, [356]);
  (359, [358]); (361, [360]); (363, [362]); (365, [364]); (367, [366]);
  (369, [368]); (371, [370]); (373, [372]); (375, [374]); (378, [377]);
  (380, [379]); (382, [381]); (383, [83]); (384, [579]); (387, [386]);
  (389, [388]); (392, [391]); (396, [395]); (402, [401]); (405, [502]);
  (409, [408]); (410, [573]); (414, [544]); (417, [416]); (419, [418]);
  (421, [420]); (424, [423]); (429, [428]); (432, [431]); (436, [435]);
  (438, [437]); (441, [440]); (445, [444]); (447, [503]); (453, [452]);
  (454, [452]); (456, [455]); (457, [455]); (459, [458]); (460, [458]);
  (462, [461]); (464, [463]); (466, [465]); (468, [467]); (470, [469]);
  (472, [471]); (474, [473]); (476, [475]); (477, [398]); (479, [478]);
  (481, [480]); (483, [482]); (485, [484]); (487, [486]); (489, [488]);
  (491, [490]); (493, [492]); (495, [494]); (496, [74; 780]); (498, [497]);
  (499, [497]); (501, [500]); (505, [504]); (507, [506]); (509, [508]);
  (511, [510]); (513, [512]); (515, [514]); (517, [516]); (519, [518]);
  (521, [520]); (523, [522]); (525, [524]); (527, [526]); (529, [528]);
  (531, [530]); (533, [532]); (535, [534]); (537, [536]); (539, [538]);
  (541, [540]); (543, [542]); (547, [546]); (549, [548]); (551, [550]);
  (553, [552]); (555, [554]); (557, [556]); (559, [558]); (561, [560]);
  (563, [562]); (572, [571]); (575, [11390]); (576, [11391]); (578, [577]);
  (583, [582]); (585, [584]); (587, [586]); (589, [588]); (591, [590]);
  (592, [11375]); (593, [11373]); (594, [11376]); (595, [385]);
  (596, [390]); (598, [393]); (599, [394]); (601, [399]); (603, [400]);
  (604, [42923]); (608, [403]); (609, [42924]); (611, [404]);
  (613, [42893]); (614, [42922]); (616, [407]); (617, [406]);
  (618, [42926]); (619, [11362]); (620, [42925]); (623, [412]);
  (625, [11374]); (626, [413]); (629, [415]); (637, [11364]); (640, [422]);
  (642, [42949]); (643, [425]); (647, [42929]); (648, [430]); (649, [580]);
  (650, [433]); (651, [434]); (652, [581]); (658, [439]); (669, [42930]);
  (670, [42928]); (837, [921]); (881, [880]); (883, [882]); (887, [886]);
  (891, [1021]); (892, [1022]); (893, [1023]); (912, [921; 776; 769]);
  (940, [902]); (941, [904]); (942, [905]); (943, [906]);
  (944, [933; 776; 769]); (945, [913]); (946, [914]); (947, [915]);
  (948, [916]); (949, [917]); (950, [918]); (951, [919]); (952, [920]);
  (953, [921]); (954, [922]); (955, [923]); (956, [924]); (957, [925]);
  (958, [926]); (959, [927]); (960, [928]); (961, [929]); (962, [931]);
  (963, [931]); (964, [932]); (965, [933]); (966, [934]); (967, [935]);
  (968, [936]); (969, [937]); (970, [938]); (971, [939]); (972, [908]);
  (973, [910]); (974, [911]); (976, [914]); (977, [920]); (981, [934]);
  (982, [928]); (983, [975]); (985, [984]); (987, [986]); (989, [988]);
  (991, [990]); (993, [992]); (995, [994]); (997, [996]); (999, [998]);
  (1001, [1000]); (1003, [1002]); (1005, [1004]); (1007, [1006]);
  (1008, [922]); (1009, [929]); (1010, [1017]); (1011, [895]);
  (1013, [917]); (1016, [1015]); (1019, [1018]); (1072, [1040]);
  (1073, [1041]); (1074, [1042]); (1075, [1043]); (1076, [1044]);
  (1077, [1045]); (1078, [1046]); (1079, [1047]); (1080, [1048]);
  (1081, [1049]); (1082, [1050]); (1083, [1051]); (1084, [1052]);
  (1085, [1053]); (1086, [1054]); (1087, [1055]); (1088, [1056]);
  (1089, [1057]); (1090, [1058]); (1091, [1059]); (1092, [1060]);
  (1093, [1061]); (1094, [1062]); (1095, [1063]); (1096, [1064]);
  (1097, [1065]); (1098, [1066]); (1099, [1067]); (1100, [1068]);
  (1101, [1069]); (1102, [1070]); (1103, [1071]); (1104, [1024]);
  (1105, [1025]); (1106, [1026]); (1107, [1027]); (1108, [1028]);
  (1109, [1029]); (1110, [1030]); (1111, [1031]); (1112, [1032]);
  (1113, [1033]); (1114, [1034]); (1115, [1035]); (1116, [1036]);
  (1117, [1037]); (1118, [1038]); (1119, [1039]); (1121, [1120]);
  (1123, [1122]); (1125, [1124]); (1127, [1126]); (1129, [1128]);
  (1131, [1130]); (1133, [1132]); (1135, [1134]); (1137, [1136]);
  (1139, [1138]); (1141, [1140]); (1143, [1142]); (1145, [1144]);
  (1147, [1146]); (1149, [1148]); (1151, [1150]); (1153, [1152]);
  (1163, [1162]); (1165, [1164]); (1167, [1166]); (1169, [1168]);
  (1171, [1170]); (1173, [1172]); (1175, [1174]); (1177, [1176]);
  (1179, [1178]); (1181, [1180]); (1183, [1182]); (1185, [1184]);
  (1187, [1186]); (1189, [1188]); (1191, [1190]); (1193, [1192]);
  (1195, [1194]); (1197, [1196]); (1199, [1198]); (1201, [1200]);
  (1203, [1202]); (1205, [1204]); (1207, [1206]); (1209, [1208]);
  (1211, [1210]); (1213, [1212]); (1215, [1214]); (1218, [1217]);
  (1220, [1219]); (1222, [1221]); (1224, [1223]); (1226, [1225]);
  (1228, [1227]); (1230, [1229]); (1231, [1216]); (1233, [1232]);
  (1235, [1234]); (1237, [1236]); (1239, [1238]); (1241, [1240]);
  (1243, [1242]); (1245, [1244]); (1247, [1246]); (1249, [1248]);
  (1251, [1250]); (1253, [1252]); (1255, [1254]); (1257, [1256]);
  (1259, [1258]); (1261, [1260]); (1263, [1262]); (1265, [1264]);
  (1267, [1266]); (1269, [1268]); (1271, [1270]); (1273, [1272]);
  (1275, [1274]); (1277, [1276]); (1279, [1278]); (1281, [1280]);
  (1283, [1282]); (1285, [1284]); (1287, [1286]); (1289, [1288]);
  (1291, [1290]); (1293, [1292]); (1295, [1294]); (1297, [1296]);
  (1299, [1298]); (1301, [1300]); (1303, [1302]); (1305, [1304]);
  (1307, [1306]); (1309, [1308]); (1311, [1310]); (1313, [1312]);
  (1315, [1314]); (1317, [1316]); (1319, [1318]); (1321, [1320]);
  (1323, [1322]); (1325, [1324]); (1327, [1326]); (1377, [1329]);
  (1378, [1330]); (1379, [1331]); (1380, [1332]); (1381, [1333]);
  (1382, [1334]); (1383, [1335]); (1384, [1336]); (1385, [1337]);
  (1386, [1338]); (1387, [1339]); (1388, [1340]); (1389, [1341]);
  (1390, [1342]); (1391, [1343]); (1392, [1344]); (1393, [1345]);
  (1394, [1346]); (1395, [1347]); (1396, [1348]); (1397, [1349]);
  (1398, [1350]); (1399, [1351]); (1400, [1352]); (1401, [1353]);
  (1402, [1354]); (1403, [1355]); (1404, [1356]); (1405, [1357]);
  (1406, [1358]); (1407, [1359]); (1408, [1360]); (1409, [1361]);
  (1410, [1362]); (1411, [1363]); (1412, [1364]); (1413, [1365]);
  (1414, [1366]); (1415, [1333; 1362]); (4304, [7312]); (4305, [7313]);
  (4306, [7314]); (4307, [7315]); (4308, [7316]); (4309, [7317]);
  (4310, [7318]); (4311, [7319]); (4312, [7320]); (4313, [7321]);
  (4314, [7322]); (4315, [7323]); (4316, [7324]); (4317, [7325]);
  (4318, [7326]); (4319, [7327]); (4320, [7328]); (4321, [7329]);
  (4322, [7330]); (4323, [7331]); (4324, [7332]); (4325, [7333]);
  (4326, [7334]); (4327, [7335]); (4328, [7336]); (4329, [7337]);
  (4330, [7338]); (4331, [7339]); (4332, [7340]); (4333, [7341]);
  (4334, [7342]); (4335, [7343]); (4336, [7344]); (4337, [7345]);
  (4338, [7346]); (4339, [7347]); (4340, [7348]); (4341, [7349]);
  (4342, [7350]); (4343, [7351]); (4344, [7352]); (4345, [7353]);
  (4346, [7354]); (4349, [7357]); (4350, [7358]); (4351, [7359]);
  (5112, [5104]); (5113, [5105]); (5114, [5106]); (5115, [5107]);
  (5116, [5108]); (5117, [5109]); (7296, [1042]); (7297, [1044]);
  (7298, [1054]); (7299, [1057]); (7300, [1058]); (7301, [1058]);
  (7302, [1066]); (7303, [1122]); (7304, [42570]); (7545, [42877]);
  (7549, [11363]); (7566, [42950]); (7681, [7680]); (7683, [7682]);
  (7685, [7684]); (7687, [7686]); (7689, [7688]); (7691, [7690]);
  (7693, [7692]); (7695, [7694]); (7697, [7696]); (7699, [7698]);
  (7701, [7700]); (7703, [7702]); (7705, [7704]); (7707, [7706]);
  (7709, [7708]); (7711, [7710]); (7713, [7712]); (7715, [7714]);
  (7717, [7716]); (7719, [7718]); (7721, [7720]); (7723, [7722]);
  (7725, [7724]); (7727, [7726]); (7729, [7728]); (7731, [7730]);
  (7733, [7732]); (7735, [7734]); (7737, [7736]); (7739, [7738]);
  (7741, [7740]); (7743, [7742]); (7745, [7744]); (7747, [7746]);
  (7749, [7748]); (7751, [7750]); (7753, [7752]); (7755, [7754]);
  (7757, [7756]); (7759, [7758]); (7761, [7760]); (7763, [7762]);
  (7765, [7764]); (7767, [7766]); (7769, [7768]); (7771, [7770]);
  (7773, [7772]); (7775, [7774]); (7777, [7776]); (7779, [7778]);
  (7781, [7780]); (7783, [7782]); (7785, [7784]); (7787, [7786]);
  (7789, [7788]); (7791, [7790]); (7793, [7792]); (7795, [7794]);
  (7797, [7796]); (7799, [7798]); (7801, [7800]); (7803, [7802]);
  (7805, [7804]); (7807, [7806]); (7809, [7808]); (7811, [7810]);
  (7813, [7812]); (7815, [7814]); (7817, [7816]); (7819, [7818]);
  (7821, [7820]); (7823, [7822]); (7825, [7824]); (7827, [7826]);
  (7829, [7828]); (7830, [72; 817]); (7831, [84; 776]); (7832, [87; 778]);
  (7833, [89; 778]); (7834, [65; 702]); (7835, [7776]); (7841, [7840]);
  (7843, [7842]); (7845, [7844]); (7847, [7846]); (7849, [7848]);
  (7851, [7850]); (7853, [7852]); (7855, [7854]); (7857, [7856]);
  (7859, [7858]); (7861, [7860]); (7863, [7862]); (7865, [7864]);
  (7867, [7866]); (7869, [7868]); (7871, [7870]); (7873, [7872]);
  (7875, [7874]); (7877, [7876]); (7879, [7878]); (7881, [7880]);
  (7883, [7882]); (7885, [7884]); (7887, [7886]); (7889, [7888]);
  (7891, [7890]); (7893, [7892]); (7895, [7894]); (7897, [7896]);
  (7899, [7898]); (7901, [7900]); (7903, [7902]); (7905, [7904]);
  (7907, [7906]); (7909, [7908]); (7911, [7910]); (7913, [7912]);
  (7915, [7914]); (7917, [7916]); (7919, [7918]); (7921, [7920]);
  (7923, [7922]); (7925, [7924]); (7927, [7926]); (7929, [7928]);
  (7931, [7930]); (7933, [7932]); (7935, [7934]); (7936, [7944]);
  (7937, [7945]); (7938, [7946]); (7939, [7947]); (7940, [7948]);
  (7941, [7949]); (7942, [7950]); (7943, [7951]); (7952, [7960]);
  (7953, [7961]); (7954, [7962]); (7955, [7963]); (7956, [7964]);
  (7957, [7965]); (7968, [7976]); (7969, [7977]); (7970, [7978]);
  (7971, [7979]); (7972, [7980]); (7973, [7981]); (7974, [7982]);
  (7975, [7983]); (7984, [7992]); (7985, [7993]); (7986, [7994]);
  (7987, [7995]); (7988, [7996]); (7989, [7997]); (7990, [7998]);
  (7991, [7999]); (8000, [8008]); (8001, [8009]); (8002, [8010]);
  (8003, [8011]); (8004, [8012]); (8005, [8013]); (8016, [933; 787]);
  (8017, [8025]); (8018, [933; 787; 768]); (8019, [8027]);
  (8020, [933; 787; 769]); (8021, [8029]); (8022, [933; 787; 834]);
  (8023, [8031]); (8032, [8040]); (8033, [8041]); (8034, [8042]);
  (8035, [8043]); (8036, [8044]); (8037, [8045]); (8038, [8046]);
  (8039, [8047]); (8048, [8122]); (8049, [8123]); (8050, [8136]);
  (8051, [8137]); (8052, [8138]); (8053, [8139]); (8054, [8154]);
  (8055, [8155]); (8056, [8184]); (8057, [8185]); (8058, [8170]);
  (8059, [8171]); (8060, [8186]); (8061, [8187]); (8064, [7944; 921]);
  (8065, [7945; 921]); (8066, [7946; 921]); (8067, [7947; 921]);
  (8068, [7948; 921]); (8069, [7949; 921]); (8070, [7950; 921]);
  (8071, [7951; 921]); (8072, [7944; 921]); (8073, [7945; 921]);
  (8074, [7946; 921]); (8075, [7947; 921]); (8076, [7948; 921]);
  (8077, [7949; 921]); (8078, [7950; 921]); (8079, [7951; 921]);
  (8080, [7976; 921]); (8081, [7977; 921]); (8082, [7978; 921]);
  (8083, [7979; 921]); (8084, [7980; 921]); (8085, [7981; 921]);
  (8086, [7982; 921]); (8087, [7983; 921]); (8088, [7976; 921]);
  (8089, [7977; 921]); (8090, [7978; 921]); (8091, [7979; 921]);
  (8092, [7980; 921]); (8093, [7981; 921]); (8094, [7982; 921]);
  (8095, [7983; 921]); (8096, [8040; 921]); (8097, [8041; 921]);
  (8098, [8042; 921]); (8099, [8043; 921]); (8100, [8044; 921]);
  (8101, [8045; 921]); (8102, [8046; 921]); (8103, [8047; 921]);
  (8104, [8040; 921]); (8105, [8041; 921]); (8106, [8042; 921]);
  (8107, [8043; 921]); (8108, [8044; 921]); (8109, [8045; 921]);
  (8110, [8046; 921]); (8111, [8047; 921]); (8112, [8120]); (8113, [8121]);
  (8114, [8122; 921]); (8115, [913; 921]); (8116, [902; 921]);
  (8118, [913; 834]); (8119, [913; 834; 921]); (8124, [913; 921]);
  (8126, [921]); (8130, [8138; 921]); (8131, [919; 921]);
  (8132, [905; 921]); (8134, [919; 834]); (8135, [919; 834; 921]);
  (8140, [919; 921]); (8144, [8152]); (8145, [8153]);
  (8146, [921; 776; 768]); (8147, [921; 776; 769]); (8150, [921; 834]);
  (8151, [921; 776; 834]); (8160, [8168]); (8161, [8169]);
  (8162, [933; 776; 768]); (8163, [933; 776; 769]); (8164, [929; 787]);
  (8165, [8172]); (8166, [933; 834]); (8167, [933; 776; 834]);
  (8178, [8186; 921]); (8179, [937; 921]); (8180, [911; 921]);
  (8182, [937; 834]); (8183, [937; 834; 921]); (8188, [937; 921]);
  (8526, [8498]); (8560, [8544]); (8561, [8545]); (8562, [8546]);
  (8563, [8547]); (8564, [8548]); (8565, [8549]); (8566, [8550]);
  (8567, [8551]); (8568, [8552]); (8569, [8553]); (8570, [8554]);
  (8571, [8555]); (8572, [8556]); (8573, [8557]); (8574, [8558]);
  (8575, [8559]); (8580, [8579]); (9424, [9398]); (9425, [9399]);
  (9426, [9400]); (9427, [9401]); (9428, [9402]); (9429, [9403]);
  (9430, [9404]); (9431, [9405]); (9432, [9406]); (9433, [9407]);
  (9434, [9408]); (9435, [9409]); (9436, [9410]); (9437, [9411]);
  (9438, [9412]); (9439, [9413]); (9440, [9414]); (9441, [9415]);
  (9442, [9416]); (9443, [9417]); (9444, [9418]); (9445, [9419]);
  (9446, [9420]); (9447, [9421]); (9448, [9422]); (9449, [9423]);
  (11312, [11264]); (11313, [11265]); (11314, [11266]); (11315, [11267]);
  (11316, [11268]); (11317, [11269]); (11318, [11270]); (11319, [11271]);
  (11320, [11272]); (11321, [11273]); (11322, [11274]); (11323, [11275]);
  (11324, [11276]); (11325, [11277]); (11326, [11278]); (11327, [11279]);
  (11328, [11280]); (11329, [11281]); (11330, [11282]); (11331, [11283]);
  (11332, [11284]); (11333, [11285]); (11334, [11286]); (11335, [11287]);
  (11336, [11288]); (11337, [11289]); (11338, [11290]); (11339, [11291]);
  (11340, [11292]); (11341, [11293]); (11342, [11294]); (11343, [11295]);
  (11344, [11296]); (11345, [11297]); (11346, [11298]); (11347, [11299]);
  (11348, [11300]); (11349, [11301]); (11350, [11302]); (11351, [11303]);
  (11352, [11304]); (11353, [11305]); (11354, [11306]); (11355, [11307]);
  (11356, [11308]); (11357, [11309]); (11358, [11310]); (11359, [11311]);
  (11361, [11360]); (11365, [570]); (11366, [574]); (11368, [11367]);
  (11370, [11369]); (11372, [11371]); (11379, [11378]); (11382, [11381]);
  (11393, [11392]); (11395, [11394]); (11397, [11396]); (11399, [11398]);
  (11401, [11400]); (11403, [11402]); (11405, [11404]); (11407, [11406]);
  (11409, [11408]); (11411, [11410]); (11413, [11412]); (11415, [11414]);
  (11417, [11416]); (11419, [11418]); (11421, [11420]); (11423, [11422]);
  (11425, [11424]); (11427, [11426]); (11429, [11428]); (11431, [11430]);
  (11433, [11432]); (11435, [11434]); (11437, [11436]); (11439, [11438]);
  (11441, [11440]); (11443, [11442]); (11445, [11444]); (11447, [11446]);
  (11449, [11448]); (11451, [11450]); (11453, [11452]); (11455, [11454]);
  (11457, [11456]); (11459, [11458]); (11461, [11460]); (11463, [11462]);
  (11465, [11464]); (11467, [11466]); (11469, [11468]); (11471, [11470]);
  (11473, [11472]); (11475, [11474]); (11477, [11476]); (11479, [11478]);
  (11481, [11480]); (11483, [11482]); (11485, [11484]); (11487, [11486]);
  (11489, [11488]); (11491, [11490]); (11500, [11499]); (11502, [11501]);
  (11507, [11506]); (11520, [4256]); (11521, [4257]); (11522, [4258]);
  (11523, [4259]); (11524, [4260]); (11525, [4261]); (11526, [4262]);
  (11527, [4263]); (11528, [4264]); (11529, [4265]); (11530, [4266]);
  (11531, [4267]); (11532, [4268]); (11533, [4269]); (11534, [4270]);
  (11535, [4271]); (11536, [4272]); (11537, [4273]); (11538, [4274]);
  (11539, [4275]); (11540, [4276]); (11541, [4277]); (11542, [4278]);
  (11543, [4279]); (11544, [4280]); (11545, [4281]); (11546, [4282]);
  (11547, [4283]); (11548, [4284]); (11549, [4285]); (11550, [4286]);
  (11551, [4287]); (11552, [4288]); (11553, [4289]); (11554, [4290]);
  (11555, [4291]); (11556, [4292]); (11557, [4293]); (11559, [4295]);
  (11565, [4301]); (42561, [42560]); (42563, [42562]); (42565, [42564]);
  (42567, [42566]); (42569, [42568]); (42571, [42570]); (42573, [42572]);
  (42575, [42574]); (42577, [42576]); (42579, [42578]); (42581, [42580]);
  (42583, [42582]); (42585, [42584]); (42587, [42586]); (42589, [42588]);
  (42591, [42590]); (42593, [42592]); (42595, [42594]); (42597, [42596]);
  (42599, [42598]); (42601, [42600]); (42603, [42602]); (42605, [42604]);
  (42625, [42624]); (42627, [42626]); (42629, [42628]); (42631, [42630]);
  (42633, [42632]); (42635, [42634]); (42637, [42636]); (42639, [42638]);
  (42641, [42640]); (42643, [42642]); (42645, [42644]); (42647, [42646]);
  (42649, [42648]); (42651, [42650]); (42787, [42786]); (42789, [42788]);
  (42791, [42790]); (42793, [42792]); (42795, [42794]); (42797, [42796]);
  (42799, [42798]); (42803, [42802]); (42805, [42804]); (42807, [42806]);
  (42809, [42808]); (42811, [42810]); (42813, [42812]); (42815, [42814]);
  (42817, [42816]); (42819, [42818]); (42821, [42820]); (42823, [42822]);
  (42825, [42824]); (42827, [42826]); (42829, [42828]); (42831, [42830]);
  (42833, [42832]); (42835, [42834]); (42837, [42836]); (42839, [42838]);
  (42841, [42840]); (42843, [42842]); (42845, [42844]); (42847, [42846]);
  (42849, [42848]); (42851, [42850]); (42853, [42852]); (42855, [42854]);
  (42857, [42856]); (42859, [42858]); (42861, [42860]); (42863, [42862]);
  (42874, [42873]); (42876, [42875]); (42879, [42878]); (42881, [42880]);
  (42883, [42882]); (42885, [42884]); (42887, [42886]); (42892, [42891]);
  (42897, [42896]); (42899, [42898]); (42900, [42948]); (42903, [42902]);
  (42905, [42904]); (42907, [42906]); (42909, [42908]); (42911, [42910]);
  (42913, [42912]); (42915, [42914]); (42917, [42916]); (42919, [42918]);
  (42921, [42920]); (42933, [42932]); (42935, [42934]); (42937, [42936]);
  (42939, [42938]); (42941, [42940]); (42943, [42942]); (42945, [42944]);
  (42947, [42946]); (42952, [42951]); (42954, [42953]); (42961, [42960]);
  (42967, [42966]); (42969, [42968]); (42998, [42997]); (43859, [42931]);
  (43888, [5024]); (43889, [5025]); (43890, [5026]); (43891, [5027]);
  (43892, [5028]); (43893, [5029]); (43894, [5030]); (43895, [5031]);
  (43896, [5032]); (43897, [5033]); (43898, [5034]); (43899, [5035]);
  (43900, [5036]); (43901, [5037]); (43902, [5038]); (43903, [5039]);
  (43904, [5040]); (43905, [5041]); (43906, [5042]); (43907, [5043]);
  (43908, [5044]); (43909, [5045]); (43910, [5046]); (43911, [5047]);
  (43912, [5048]); (43913, [5049]); (43914, [5050]); (43915, [5051]);
  (43916, [5052]); (43917, [5053]); (43918, [5054]); (43919, [5055]);
  (43920, [5056]); (43921, [5057]); (43922, [5058]); (43923, [5059]);
  (43924, [5060]); (43925, [5061]); (43926, [5062]); (43927, [5063]);
  (43928, [5064]); (43929, [5065]); (43930, [5066]); (43931, [5067]);
  (43932, [5068]); (43933, [5069]); (43934, [5070]); (43935, [5071]);
  (43936, [5072]); (43937, [5073]); (43938, [5074]); (43939, [5075]);
  (43940, [5076]); (43941, [5077]); (43942, [5078]); (43943, [5079]);
  (43944, [5080]); (43945, [5081]); (43946, [5082]); (43947, [5083]);
  (43948, [5084]); (43949, [5085]); (43950, [5086]); (43951, [5087]);
  (43952, [5088]); (43953, [5089]); (43954, [5090]); (43955, [5091]);
  (43956, [5092]); (43957, [5093]); (43958, [5094]); (43959, [5095]);
  (43960, [5096]); (43961, [5097]); (43962, [5098]); (43963, [5099]);
  (43964, [5100]); (43965, [5101]); (43966, [5102]); (43967, [5103]);
  (64256, [70; 70]); (64257, [70; 73]); (64258, [70; 76]);
  (64259, [70; 70; 73]); (64260, [70; 70; 76]); (64261, [83; 84]);
  (64262, [83; 84]); (64275, [1348; 1350]); (64276, [1348; 1333]);
  (64277, [1348; 1339]); (64278, [1358; 1350]); (64279, [1348; 1341]);
  (65345, [65313]); (65346, [65314]); (65347, [65315]); (65348, [65316]);
  (65349, [65317]); (65350, [65318]); (65351, [65319]); (65352, [65320]);
  (65353, [65321]); (65354, [65322]); (65355, [65323]); (65356, [65324]);
  (65357, [65325]); (65358, [65326]); (65359, [65327]); (65360, [65328]);
  (65361, [65329]); (65362, [65330]); (65363, [65331]); (65364, [65332]);
  (65365, [65333]); (65366, [65334]); (65367, [65335]); (65368, [65336]);
  (65369, [65337]); (65370, [65338])
]%N.

(** The upper-case mappings of the supplementary code points that have
    one, each code point written as its two surrogates. *)
Definition astral_upper : list (N * N * (N * N)) := [
  (55297, 56360, (55297, 56320)); (55297, 56361, (55297, 56321));
  (55297, 56362, (55297, 56322)); (55297, 56363, (55297, 56323));
  (55297, 56364, (55297, 56324)); (55297, 56365, (55297, 56325));
  (55297, 56366, (55297, 56326)); (55297, 56367, (55297, 56327));
  (55297, 56368, (55297, 56328)); (55297, 56369, (55297, 56329));
  (55297, 56370, (55297, 56330)); (55297, 56371, (55297, 56331));
  (55297, 56372, (55297, 56332)); (55297, 56373, (55297, 56333));
  (55297, 56374, (55297, 56334)); (55297, 56375, (55297, 56335));
  (55297, 56376, (55297, 56336)); (55297, 56377, (55297, 56337));
  (55297, 56378, (55297, 56338)); (55297, 56379, (55297, 56339));
  (55297, 56380, (55297, 56340)); (55297, 56381, (55297, 56341));
  (55297, 56382, (55297, 56342)); (55297, 56383, (55297, 56343));
  (55297, 56384, (55297, 56344)); (55297, 56385, (55297, 56345));
  (55297, 56386, (55297, 56346)); (55297, 56387, (55297, 56347));
  (55297, 56388, (55297, 56348)); (55297, 56389, (55297, 56349));
  (55297, 56390, (55297, 56350)); (55297, 56391, (55297, 56351));
  (55297, 56392, (55297, 56352)); (55297, 56393, (55297, 56353));
  (55297, 56394, (55297, 56354)); (55297, 56395, (55297, 56355));
  (55297, 56396, (55297, 56356)); (55297, 56397, (55297, 56357));
  (55297, 56398, (55297, 56358)); (55297, 56399, (55297, 56359));
  (55297, 56536, (55297, 56496)); (55297, 56537, (55297, 56497));
  (55297, 56538, (55297, 56498)); (55297, 56539, (55297, 56499));
  (55297, 56540, (55297, 56500)); (55297, 56541, (55297, 56501));
  (55297, 56542, (55297, 56502)); (55297, 56543, (55297, 56503));
  (55297, 56544, (55297, 56504)); (55297, 56545, (55297, 56505));
  (55297, 56546, (55297, 56506)); (55297, 56547, (55297, 56507));
  (55297, 56548, (55297, 56508)); (55297, 56549, (55297, 56509));
  (55297, 56550, (55297, 56510)); (55297, 56551, (55297, 56511));
  (55297, 56552, (55297, 56512)); (55297, 56553, (55297, 56513));
  (55297, 56554, (55297, 56514)); (55297, 56555, (55297, 56515));
  (55297, 56556, (55297, 56516)); (55297, 56557, (55297, 56517));
  (55297, 56558, (55297, 56518)); (55297, 56559, (55297, 56519));
  (55297, 56560, (55297, 56520)); (55297, 56561, (55297, 56521));
  (55297, 56562, (55297, 56522)); (55297, 56563, (55297, 56523));
  (55297, 56564, (55297, 56524)); (55297, 56565, (55297, 56525));
  (55297, 56566, (55297, 56526)); (55297, 56567, (55297, 56527));
  (55297, 56568, (55297, 56528)); (55297, 56569, (55297, 56529));
  (55297, 56570, (55297, 56530)); (55297, 56571, (55297, 56531));
  (55297, 56727, (55297, 56688)); (55297, 56728, (55297, 56689));
  (55297, 56729, (55297, 56690)); (55297, 56730, (55297, 56691));
  (55297, 56731, (55297, 56692)); (55297, 56732, (55297, 56693));
  (55297, 56733, (55297, 56694)); (55297, 56734, (55297, 56695));
  (55297, 56735, (55297, 56696)); (55297, 56736, (55297, 56697));
  (55297, 56737, (55297, 56698)); (55297, 56739, (55297, 56700));
  (55297, 56740, (55297, 56701)); (55297, 56741, (55297, 56702));
  (55297, 56742, (55297, 56703)); (55297, 56743, (55297, 56704));
  (55297, 56744, (55297, 56705)); (55297, 56745, (55297, 56706));
  (55297, 56746, (55297, 56707)); (55297, 56747, (55297, 56708));
  (55297, 56748, (55297, 56709)); (55297, 56749, (55297, 56710));
  (55297, 56750, (55297, 56711)); (55297, 56751, (55297, 56712));
  (55297, 56752, (55297, 56713)); (55297, 56753, (55297, 56714));
  (55297, 56755, (55297, 56716)); (55297, 56756, (55297, 56717));
  (55297, 56757, (55297, 56718)); (55297, 56758, (55297, 56719));
  (55297, 56759, (55297, 56720)); (55297, 56760, (55297, 56721));
  (55297, 56761, (55297, 56722)); (55297, 56763, (55297, 56724));
  (55297, 56764, (55297, 56725)); (55299, 56512, (55299, 56448));
  (55299, 56513, (55299, 56449)); (55299, 56514, (55299, 56450));
  (55299, 56515, (55299, 56451)); (55299, 56516, (55299, 56452));
  (55299, 56517, (55299, 56453)); (55299, 56518, (55299, 56454));
  (55299, 56519, (55299, 56455)); (55299, 56520, (55299, 56456));
  (55299, 56521, (55299, 56457)); (55299, 56522, (55299, 56458));
  (55299, 56523, (55299, 56459)); (55299, 56524, (55299, 56460));
  (55299, 56525, (55299, 56461)); (55299, 56526, (55299, 56462));
  (55299, 56527, (55299, 56463)); (55299, 56528, (55299, 56464));
  (55299, 56529, (55299, 56465)); (55299, 56530, (55299, 56466));
  (55299, 56531, (55299, 56467)); (55299, 56532, (55299, 56468));
  (55299, 56533, (55299, 56469)); (55299, 56534, (55299, 56470));
  (55299, 56535, (55299, 56471)); (55299, 56536, (55299, 56472));
  (55299, 56537, (55299, 56473)); (55299, 56538, (55299, 56474));
  (55299, 56539, (55299, 56475)); (55299, 56540, (55299, 56476));
  (55299, 56541, (55299, 56477)); (55299, 56542, (55299, 56478));
  (55299, 56543, (55299, 56479)); (55299, 56544, (55299, 56480));
  (55299, 56545, (55299, 56481)); (55299, 56546, (55299, 56482));
  (55299, 56547, (55299, 56483)); (55299, 56548, (55299, 56484));
  (55299, 56549, (55299, 56485)); (55299, 56550, (55299, 56486));
  (55299, 56551, (55299, 56487)); (55299, 56552, (55299, 56488));
  (55299, 56553, (55299, 56489)); (55299, 56554, (55299, 56490));
  (55299, 56555, (55299, 56491)); (55299, 56556, (55299, 56492));
  (55299, 56557, (55299, 56493)); (55299, 56558, (55299, 56494));
  (55299, 56559, (55299, 56495)); (55299, 56560, (55299, 56496));
  (55299, 56561, (55299, 56497)); (55299, 56562, (55299, 56498));
  (55302, 56512, (55302, 56480)); (55302, 56513, (55302, 56481));
  (55302, 56514, (55302, 56482)); (55302, 56515, (55302, 56483));
  (55302, 56516, (55302, 56484)); (55302, 56517, (55302, 56485));
  (55302, 56518, (55302, 56486)); (55302, 56519, (55302, 56487));
  (55302, 56520, (55302, 56488)); (55302, 56521, (55302, 56489));
  (55302, 56522, (55302, 56490)); (55302, 56523, (55302, 56491));
  (55302, 56524, (55302, 56492)); (55302, 56525, (55302, 56493));
  (55302, 56526, (55302, 56494)); (55302, 56527, (55302, 56495));
  (55302, 56528, (55302, 56496)); (55302, 56529, (55302, 56497));
  (55302, 56530, (55302, 56498)); (55302, 56531, (55302, 56499));
  (55302, 56532, (55302, 56500)); (55302, 56533, (55302, 56501));
  (55302, 56534, (55302, 56502)); (55302, 56535, (55302, 56503));
  (55302, 56536, (55302, 56504)); (55302, 56537, (55302, 56505));
  (55302, 56538, (55302, 56506)); (55302, 56539, (55302, 56507));
  (55302, 56540, (55302, 56508)); (55302, 56541, (55302, 56509));
  (55302, 56542, (55302, 56510)); (55302, 56543, (55302, 56511));
  (55323, 56928, (55323, 56896)); (55323, 56929, (55323, 56897));
  (55323, 56930, (55323, 56898)); (55323, 56931, (55323, 56899));
  (55323, 56932, (55323, 56900)); (55323, 56933, (55323, 56901));
  (55323, 56934, (55323, 56902)); (55323, 56935, (55323, 56903));
  (55323, 56936, (55323, 56904)); (55323, 56937, (55323, 56905));
  (55323, 56938, (55323, 56906)); (55323, 56939, (55323, 56907));
  (55323, 56940, (55323, 56908)); (55323, 56941, (55323, 56909));
  (55323, 56942, (55323, 56910)); (55323, 56943, (55323, 56911));
  (55323, 56944, (55323, 56912)); (55323, 56945, (55323, 56913));
  (55323, 56946, (55323, 56914)); (55323, 56947, (55323, 56915));
  (55323, 56948, (55323, 56916)); (55323, 56949, (55323, 56917));
  (55323, 56950, (55323, 56918)); (55323, 56951, (55323, 56919));
  (55323, 56952, (55323, 56920)); (55323, 56953, (55323, 56921));
  (55323, 56954, (55323, 56922)); (55323, 56955, (55323, 56923));
  (55323, 56956, (55323, 56924)); (55323, 56957, (55323, 56925));
  (55323, 56958, (55323, 56926)); (55323, 56959, (55323, 56927));
  (55354, 56610, (55354, 56576)); (55354, 56611, (55354, 56577));
  (55354, 56612, (55354, 56578)); (55354, 56613, (55354, 56579));
  (55354, 56614, (55354, 56580)); (55354, 56615, (55354, 56581));
  (55354, 56616, (55354, 56582)); (55354, 56617, (55354, 56583));
  (55354, 56618, (55354, 56584)); (55354, 56619, (55354, 56585));
  (55354, 56620, (55354, 56586)); (55354, 56621, (55354, 56587));
  (55354, 56622, (55354, 56588)); (55354, 56623, (55354, 56589));
  (55354, 56624, (55354, 56590)); (55354, 56625, (55354, 56591));
  (55354, 56626, (55354, 56592)); (55354, 56627, (55354, 56593));
  (55354, 56628, (55354, 56594)); (55354, 56629, (55354, 56595));
  (55354, 56630, (55354, 56596)); (55354, 56631, (55354, 56597));
  (55354, 56632, (55354, 56598)); (55354, 56633, (55354, 56599));
  (55354, 56634, (55354, 56600)); (55354, 56635, (55354, 56601));
  (55354, 56636, (55354, 56602)); (55354, 56637, (55354, 56603));
  (55354, 56638, (55354, 56604)); (55354, 56639, (55354, 56605));
  (55354, 56640, (55354, 56606)); (55354, 56641, (55354, 56607));
  (55354, 56642, (55354, 56608)); (55354, 56643, (55354, 56609))
]%N.

Fixpoint assoc {K V : Type} (eqb : K -> K -> bool) (k : K)
    (t : list (K * V)) : option V :=
  match t with
  | [] => None
  | (k', v) :: t' => if eqb k k' then Some v else assoc eqb k t'
  end.

Definition pair_eqb (p q : N * N) : bool :=
  N.eqb (fst p) (fst q) && N.eqb (snd p) (snd q).

(** Upper case of a code unit standing for itself. *)
Definition upper_unit (u : N) : list N :=
  match assoc N.eqb u bmp_upper with
  | Some ds => ds
  | None => [u]
  end.

(** Upper case of a surrogate pair. *)
Definition upper_pair (h l : N) : N * N :=
  match assoc pair_eqb (h, l) astral_upper with
  | Some p => p
  | None => (h, l)
  end.

(** A code point of a string: a code unit standing for itself (a lone
    surrogate included), or a high and a low surrogate. *)
Inductive CodePoint :=
| Single (u : N)
| Surrogates (h l : N).

Fixpoint StringToCodePoints (s : list N) : list CodePoint :=
  match s with
  | [] => []
  | h :: t =>
      match t with
      | l :: t' =>
          if is_high h && is_low l
          then Surrogates h l :: StringToCodePoints t'
          else Single h :: StringToCodePoints t
      | [] => [Single h]
      end
  end.

Definition CodePointsToString (cps : list CodePoint) : list N :=
  flat_map (fun c => match c with
                     | Single u => [u]
                     | Surrogates h l => [h; l]
                     end) cps.

Definition isWhiteSpaceCP (c : CodePoint) : bool :=
  match c with
  | Single u => isWhiteSpace u
  | Surrogates _ _ => false
  end.

Definition toUpper (c : CodePoint) : list CodePoint :=
  match c with
  | Single u => map Single (upper_unit u)
  | Surrogates h l => [Surrogates (fst (upper_pair h l)) (snd (upper_pair h l))]
  end.

(** [s.trim()] *)
Definition trim (s : list N) : list N := JsString.trim isWhiteSpace s.

(** [s.toUpperCase()] *)
Definition toUpperCase (s : list N) : list N :=
  CodePointsToString
    (JsString.toUpperCase toUpper (StringToCodePoints s)).

(** [s.trim().toUpperCase()] *)
Definition normalise (s : list N) : list N := toUpperCase (trim s).

(* ===================================================================== *)
(** ** View state, JSX trees                                             *)
(* ===================================================================== *)

(** The two [useState] cells of [JoinGameButton]. *)
Record ViewState := mkView {
  isLoading : bool;
  errors : gmap string string
}.

(** Initial values: [useState(false)], [useState({})]. *)
Definition initialView : ViewState := mkView false ∅.

Inductive Component :=
| HeroUIProvider | ToastProvider | UserProvider | GameProvider
| Form | Input | Button.

#[global] Instance Component_eq_dec : EqDecision Component.
Proof. solve_decision. Defined.

Inductive PropValue :=
| PString (s : string)
| PBool (b : bool)
| PErrors (m : gmap string string)
| PRouterPush          (* the function [router.push] *)
| POnSubmit.           (* the closure [onSubmit] *)

Definition Props := list (string * PropValue).

(** A rendered tree over externally supplied content of type [A]
    (the [children] a component is given). *)
#[local] Set Warnings "-register-all".
Inductive Node (A : Type) :=
| Element (tag : Component) (props : Props) (kids : list (Node A))
| Text (s : string)
| Slot (a : A).
Arguments Element {A} tag props kids.
Arguments Text {A} s.
Arguments Slot {A} a.

(** The value of a prop, the first binding of its name. *)
Fixpoint prop (name : string) (ps : Props) : option PropValue :=
  match ps with
  | [] => None
  | (k, v) :: ps' => if String.eqb k name then Some v else prop name ps'
  end.

(** A boolean prop; absent means [false]. *)
Definition flag (name : string) (ps : Props) : bool :=
  match prop name ps with
  | Some (PBool b) => b
  | _ => false
  end.

(** For every place where supplied content sits in the tree: the
    components that enclose it, outermost first. *)
Fixpoint scopes {A} (t : Node A) : list (list Component * A) :=
  match t with
  | Element c _ kids =>
      map (fun pa => (c :: fst pa, snd pa)) (flat_map scopes kids)
  | Text _ => []
  | Slot a => [([], a)]
  end.

(** The props and children of every element with tag [c], in document
    order. *)
Fixpoint elements {A} (c : Component) (t : Node A)
  : list (Props * list (Node A)) :=
  match t with
  | Element c' ps kids =>
      (if bool_decide (c' = c) then [(ps, kids)] else [])
        ++ flat_map (elements c) kids
  | Text _ => []
  | Slot _ => []
  end.

(* ===================================================================== *)
(** ** [Providers]                                                       *)
(* ===================================================================== *)

Definition Providers {A} (children : A) : Node A :=
  Element HeroUIProvider [("navigate", PRouterPush)]
    [ Element ToastProvider [] [];
      Element UserProvider []
        [ Element GameProvider [] [ Slot children ] ] ].

(** The reading of the specification: the content is wrapped in the
    scopes of [chain], each one around the next. *)
Definition nested_in {A} (chain : list Component) (children : A)
    (t : Node A) : Prop :=
  scopes t = [(chain, children)].

(** The tree [t] holds an element with tag [c]. *)
Definition occurs {A} (c : Component) (t : Node A) : bool :=
  match elements c t with [] => false | _ :: _ => true end.

(** An element with tag [outer] has an element with tag [inner] below it. *)
Definition encloses {A} (outer inner : Component) (t : Node A) : bool :=
  existsb (fun e => existsb (occurs inner) (snd e)) (elements outer t).

(* ===================================================================== *)
(** ** [JoinGameButton]: the rendered form                               *)
(* ===================================================================== *)

Definition JoinGameButton_render (v : ViewState) : Node Empty_set :=
  Element Form
    [ ("className", PString "w-full max-w-xs");
      ("validationErrors", PErrors (errors v));
      ("onSubmit", POnSubmit) ]
    [ Element Input
        [ ("isRequired", PBool true);
          ("isDisabled", PBool (isLoading v));
          ("label", PString "GameID");
          ("labelPlacement", PString "outside");
          ("name", PString "GameID");
          ("placeholder", PString "Enter the 5 character GameID") ]
        [];
      Element Button
        [ ("color", PString "primary");
          ("isLoading", PBool (isLoading v));
          ("type", PString "submit") ]
        [ Text "Join a game!" ] ].

(* ===================================================================== *)
(** ** Collaborators of the submit handler                               *)
(* ===================================================================== *)

Definition JsError := string.

(** What [getGameMetadata] yields when a game exists. *)
Record GameMetadata := mkMetadata { game_type : list N }.

(** A value of type [T | null | undefined]. *)
Inductive Nullable (A : Type) :=
| JsNull
| JsUndefined
| JsObject (a : A).
Arguments JsNull {A}.
Arguments JsUndefined {A}.
Arguments JsObject {A} a.

(** [if (v)] on such a value: an object is truthy, [null] and
    [undefined] are not. *)
Definition truthy {A} (v : Nullable A) : bool :=
  match v with
  | JsObject _ => true
  | JsNull | JsUndefined => false
  end.

(** How a promise settles. *)
Inductive Settled (A : Type) :=
| Resolved (a : A)
| Rejected (e : JsError).
Arguments Resolved {A} a.
Arguments Rejected {A} e.

(** The functions the handler imports or closes over, taken as given:
    - [validateGameID] from [@/lib/gameFunctions], as the boolean it
      returns (a predicate: it is taken to return);
    - [getGameMetadata] from [@/lib/apiCalls], as the way its promise
      settles for a given id (it is taken to settle);
    - [router.push], as the exception it throws for a path, if any. *)
Record Collaborators := mkCollaborators {
  validateGameID : list N -> bool;
  getGameMetadata : list N -> Settled (Nullable GameMetadata);
  router_push : list N -> option JsError
}.

(** [FormData]: the entries of the submitted form, in order. *)
Inductive FormDataEntryValue :=
| EntryString (s : list N)
| EntryFile (name : string).

Definition FormData := list (string * FormDataEntryValue).

(** [formData.get(name)]: the first entry of that name, or [null]. *)
Fixpoint FormData_get (name : string) (fd : FormData)
  : option FormDataEntryValue :=
  match fd with
  | [] => None
  | (k, v) :: fd' => if String.eqb k name then Some v else FormData_get name fd'
  end.

(** [value.toString()] *)
Definition entry_toString (v : FormDataEntryValue) : list N :=
  match v with
  | EntryString s => s
  | EntryFile _ => js "[object File]"
  end.

Record FormEvent := mkFormEvent { currentTarget : FormData }.

(* ===================================================================== *)
(** ** Effects of the handler                                            *)
(* ===================================================================== *)

Inductive Logged :=
| LString (s : list N)
| LValue (v : Nullable GameMetadata)
| LError (e : JsError).

(** What the handler does to the outside, in the order it does it.
    [EAwait v]: the handler is suspended at an [await] while the view
    state is [v]. *)
Inductive Event :=
| EPreventDefault
| EConsoleLog (args : list Logged)
| ESetErrors (m : gmap string string)
| ESetIsLoading (b : bool)
| EGetGameMetadata (gameID : list N)
| EAwait (v : ViewState)
| ERouterPush (path : list N).

Inductive Completion (A : Type) :=
| Normal (a : A)
| Throw (e : JsError).
Arguments Normal {A} a.
Arguments Throw {A} e.

(** A computation reads and writes the view state, may throw, and emits
    events. *)
Definition Handler (A : Type) : Type :=
  ViewState -> Completion A * ViewState * list Event.

#[global] Instance Handler_ret : MRet Handler :=
  fun A a s => (Normal a, s, []).

#[global] Instance Handler_bind : MBind Handler :=
  fun A B k m s =>
    match m s with
    | (Normal a, s1, t1) =>
        match k a s1 with
        | (r, s2, t2) => (r, s2, t1 ++ t2)
        end
    | (Throw e, s1, t1) => (Throw e, s1, t1)
    end.

Definition emit (e : Event) : Handler unit :=
  fun s => (Normal tt, s, [e]).

(** [try { body } catch (err) { handler } finally { cleanup }] *)
Definition try_catch_finally (body : Handler unit)
    (handler : JsError -> Handler unit) (cleanup : Handler unit)
  : Handler unit :=
  fun s =>
    match body s with
    | (r1, s1, t1) =>
        match (match r1 with
               | Normal a => (Normal a, s1, [])
               | Throw e => handler e s1
               end) with
        | (r2, s2, t2) =>
            match cleanup s2 with
            | (Normal _, s3, t3) => (r2, s3, t1 ++ t2 ++ t3)
            | (Throw e, s3, t3) => (Throw e, s3, t1 ++ t2 ++ t3)
            end
        end
    end.

(** [await p]: suspend, then continue with the value or throw the
    rejection. *)
Definition await {A} (p : Settled A) : Handler A :=
  fun s =>
    (match p with Resolved a => Normal a | Rejected e => Throw e end,
     s, [EAwait s]).

Definition preventDefault : Handler unit := emit EPreventDefault.

Definition console_log (args : list Logged) : Handler unit :=
  emit (EConsoleLog args).

(** The setters of [useState], called with a value: the cell is replaced. *)
Definition setIsLoading (b : bool) : Handler unit :=
  fun s => (Normal tt, mkView b (errors s), [ESetIsLoading b]).

Definition setErrors (m : gmap string string) : Handler unit :=
  fun s => (Normal tt, mkView (isLoading s) m, [ESetErrors m]).

Definition call_getGameMetadata (env : Collaborators) (gameID : list N)
  : Handler (Settled (Nullable GameMetadata)) :=
  emit (EGetGameMetadata gameID);; mret (getGameMetadata env gameID).

Definition call_router_push (env : Collaborators) (path : list N)
  : Handler unit :=
  fun s =>
    (match router_push env path with None => Normal tt | Some e => Throw e end,
     s, [ERouterPush path]).

(** [gameMetadata.game_type]; reading a property of [null] or
    [undefined] throws a TypeError. *)
Definition get_game_type (v : Nullable GameMetadata) : Handler (list N) :=
  fun s =>
    (match v with
     | JsObject md => Normal (game_type md)
     | JsNull | JsUndefined => Throw "TypeError"
     end, s, []).

(* ===================================================================== *)
(** ** [JoinGameButton]: the submit handler                              *)
(* ===================================================================== *)

(** [formData.get("GameID")?.toString().trim().toUpperCase() ?? ""] *)
Definition submitted_gameID (formData : FormData) : list N :=
  match FormData_get "GameID" formData with
  | Some v => toUpperCase (trim (entry_toString v))
  | None => js ""
  end.

Definition onSubmit (env : Collaborators) (formInput : FormEvent)
  : Handler unit :=
  preventDefault;;
  let formData := currentTarget formInput in
  let gameID := submitted_gameID formData in
  console_log [LString (js "Provided game ID: " +:+ gameID)];;
  if negb (validateGameID env gameID) then
    setErrors {[ "GameID" := "Game IDs need to be a 5 letter string." ]}
  else
    setIsLoading true;;
    setErrors ∅;;
    try_catch_finally
      (gameMetadata ← (p ← call_getGameMetadata env gameID; await p);
       console_log [LString (js "gameMetadata"); LValue gameMetadata];;
       if truthy gameMetadata then
         ty ← get_game_type gameMetadata;
         call_router_push env (js "/" +:+ ty +:+ js "/" +:+ gameID)
       else
         setErrors {[ "GameID" := "Invalid game ID" ]})
      (fun err =>
         console_log [LError err];;
         setErrors {[ "GameID" := "Invalid game ID" ]})
      (setIsLoading false).

(** Reading off the result of a run. *)
Definition completion {A} (r : Completion A * ViewState * list Event)
  : Completion A := fst (fst r).
Definition view {A} (r : Completion A * ViewState * list Event)
  : ViewState := snd (fst r).
Definition trace {A} (r : Completion A * ViewState * list Event)
  : list Event := snd r.

(* ===================================================================== *)
(** ** Reading a trace                                                   *)
(* ===================================================================== *)

(** The paths [router.push] was called with. *)
Definition pushes (t : list Event) : list (list N) :=
  omap (fun e => match e with ERouterPush p => Some p | _ => None end) t.

(** The ids [getGameMetadata] was called with. *)
Definition lookups (t : list Event) : list (list N) :=
  omap (fun e => match e with EGetGameMetadata g => Some g | _ => None end) t.

(** The values given to [setIsLoading]. *)
Definition loading_writes (t : list Event) : list bool :=
  omap (fun e => match e with ESetIsLoading b => Some b | _ => None end) t.

(** The maps given to [setErrors]. *)
Definition error_writes (t : list Event) : list (gmap string string) :=
  omap (fun e => match e with ESetErrors m => Some m | _ => None end) t.

(** The view states the form was in while the handler was suspended. *)
Definition inflight (t : list Event) : list ViewState :=
  omap (fun e => match e with EAwait v => Some v | _ => None end) t.

(** Some event satisfying [p] comes strictly before some event
    satisfying [q]. *)
Fixpoint precedes (p q : Event -> bool) (t : list Event) : bool :=
  match t with
  | [] => false
  | e :: t' => (p e && existsb q t') || precedes p q t'
  end.

Definition clears_errors (e : Event) : bool :=
  match e with
  | ESetErrors m => bool_decide (m = ∅)
  | _ => false
  end.

Definition starts_loading (e : Event) : bool :=
  match e with
  | ESetIsLoading b => b
  | _ => false
  end.

Definition looks_up (gameID : list N) (e : Event) : bool :=
  match e with
  | EGetGameMetadata g => js_eqb g gameID
  | _ => false
  end.

(** The order of the specification: clear the error map, then set the
    loading flag, then call the lookup. *)
Definition clear_load_lookup (gameID : list N) (t : list Event) : bool :=
  precedes clears_errors starts_loading t
  && precedes starts_loading (looks_up gameID) t
  && precedes clears_errors (looks_up gameID) t.

(** The order of the handler's statements: set the loading flag, then
    clear the error map, then call the lookup. *)
Definition load_clear_lookup (gameID : list N) (t : list Event) : bool :=
  precedes starts_loading clears_errors t
  && precedes clears_errors (looks_up gameID) t
  && precedes starts_loading (looks_up gameID) t.

(** A lookup that gives the handler nothing to navigate to: a falsy
    value or a rejection. *)
Definition lookup_failed (o : Settled (Nullable GameMetadata)) : bool :=
  match o with
  | Resolved v => negb (truthy v)
  | Rejected _ => true
  end.

(** The controls of the rendered form, each with the verdict of the
    component library's rule [disabled] on its props. *)
Definition controls (disabled : Component -> Props -> bool)
    (c : Component) (t : Node Empty_set) : list bool :=
  map (fun e => disabled c (fst e)) (elements c t).

(** HeroUI's rule: an [Input] is disabled by [isDisabled]; a [Button] is
    disabled by [isDisabled] and also while [isLoading]. *)
Definition heroui_disabled (c : Component) (ps : Props) : bool :=
  match c with
  | Button => flag "isDisabled" ps || flag "isLoading" ps
  | _ => flag "isDisabled" ps
  end.

(* ===================================================================== *)
(** ** A concrete world to run the handler in                            *)
(* ===================================================================== *)

Definition isAlphabetic (u : N) : bool :=
  (((65 <=? u) && (u <=? 90)) || ((97 <=? u) && (u <=? 122)))%N.

(** Modelled from the spec: [validateGameID] lives in
    [@/lib/gameFunctions], which is not among the sources; its contract
    is "true iff candidate is exactly 5 characters, all alphabetic". *)
Definition validateGameID_spec (candidate : list N) : bool :=
  (length candidate =? 5)%nat && forallb isAlphabetic candidate.

(** The lookups of the specification's scenarios: ["ABCDE"] is a trivia
    game, ["ZZZZZ"] resolves to [null], ["UUUUU"] to [undefined], and
    any other id is rejected. *)
Definition scenario_lookup (gameID : list N)
  : Settled (Nullable GameMetadata) :=
  if js_eqb gameID (js "ABCDE")
  then Resolved (JsObject (mkMetadata (js "trivia")))
  else if js_eqb gameID (js "ZZZZZ") then Resolved JsNull
  else if js_eqb gameID (js "UUUUU") then Resolved JsUndefined
  else Rejected "network failure".

Definition scenario : Collaborators :=
  mkCollaborators validateGameID_spec scenario_lookup (fun _ => None).

(** The same world with a router whose [push] throws. *)
Definition scenario_broken_router : Collaborators :=
  mkCollaborators validateGameID_spec scenario_lookup
    (fun _ => Some "navigation failed").

Definition submit (text : list N) : FormEvent :=
  mkFormEvent [("GameID", EntryString text)].

Definition shape_error : gmap string string :=
  {[ "GameID" := "Game IDs need to be a 5 letter string." ]}.
Definition invalid_error : gmap string string :=
  {[ "GameID" := "Invalid game ID" ]}.

(* ===================================================================== *)
(** ** Shapes of ids, sequences of submissions, what the form shows      *)
(* ===================================================================== *)

(** White space is its own upper case. *)
Definition upper_fixes_space {C : Type} (isWhiteSpace : C -> bool)
    (toUpper : C -> list C) : Prop :=
  forall c, isWhiteSpace c = true -> toUpper c = [c].

(** The letters [a] to [z]. *)
Definition lower_letters : list N :=
  [ 97; 98; 99; 100; 101; 102; 103; 104; 105; 106; 107; 108; 109;
    110; 111; 112; 113; 114; 115; 116; 117; 118; 119; 120; 121; 122 ]%N.

Definition isLowerCase (u : N) : bool := existsb (N.eqb u) lower_letters.

(** Every code unit of [s] is white space. *)
Definition all_space (s : list N) : bool := forallb isWhiteSpace s.

(** No white space at either end. *)
Definition spaceless_ends (l : list N) : bool :=
  match head l with Some c => negb (isWhiteSpace c) | None => true end
  && match last l with Some c => negb (isWhiteSpace c) | None => true end.

(** An id in the form the handler works with: no white space at either
    end and no letter in [a-z]. *)
Definition canonical (s : list N) : bool :=
  spaceless_ends s && forallb (fun u => negb (isLowerCase u)) s.

Definition is_surrogate (u : N) : bool := is_high u || is_low u.

Definition unmapped {K V : Type} (eqb : K -> K -> bool) (k : K)
    (t : list (K * V)) : bool :=
  match assoc eqb k t with None => true | Some _ => false end.

(** No code unit of [s] is a surrogate or has an upper-case mapping. *)
Definition caseless (s : list N) : bool :=
  forallb (fun u => unmapped N.eqb u bmp_upper && negb (is_surrogate u)) s.

(** What is checked of every entry of the tables: the key is neither a
    surrogate nor white space, and the mapping is not empty and made of
    code units that are not surrogates, not white space, not in [a-z]
    and have no mapping of their own; a supplementary code point is
    mapped to a supplementary code point that has no mapping. *)
Definition bmp_entry_ok (e : N * list N) : bool :=
  negb (is_surrogate (fst e)) && negb (isWhiteSpace (fst e))
  && match snd e with [] => false | _ :: _ => true end
  && forallb (fun d => negb (is_surrogate d) && negb (isWhiteSpace d)
                       && negb (isLowerCase d)
                       && unmapped N.eqb d bmp_upper) (snd e).

Definition astral_entry_ok (e : N * N * (N * N)) : bool :=
  is_high (fst (fst e)) && is_low (snd (fst e))
  && is_high (fst (snd e)) && is_low (snd (snd e))
  && unmapped pair_eqb (snd e) astral_upper.

(** The surrogates of a string's code points are well placed: a pair is
    a high and a low one, and no lone high one stands before a lone low
    one. *)
Definition starts_low (cps : list CodePoint) : bool :=
  match cps with
  | Single l :: _ => is_low l
  | _ => false
  end.

Fixpoint well_formed (cps : list CodePoint) : bool :=
  match cps with
  | [] => true
  | Single u :: r => negb (is_high u && starts_low r) && well_formed r
  | Surrogates h l :: r => is_high h && is_low l && well_formed r
  end.

(** [u] and the first code unit of [t] make a surrogate pair. *)
Definition pairs (u : N) (t : list N) : bool :=
  match t with
  | l :: _ => is_high u && is_low l
  | [] => false
  end.

(** The tags of the direct children of the elements with tag [c]. *)
Definition root_tag {A} (t : Node A) : option Component :=
  match t with
  | Element c _ _ => Some c
  | _ => None
  end.

Definition child_tags {A} (c : Component) (t : Node A)
  : list (list (option Component)) :=
  map (fun e => map root_tag (snd e)) (elements c t).

(** The direct children of the elements with tag [c]. *)
Definition children_of {A} (c : Component) (t : Node A)
  : list (list (Node A)) :=
  map snd (elements c t).

(** What the browser puts in [new FormData(form)] for the inputs of a
    tree when [text] was typed in each: one entry per named input, in
    order; a disabled input gives no entry. *)
Definition form_entries {A} (t : Node A) (text : list N) : FormData :=
  omap (fun e => match prop "name" (fst e) with
                 | Some (PString n) =>
                     if flag "isDisabled" (fst e) then None
                     else Some (n, EntryString text)
                 | _ => None
                 end) (elements Input t).

(** One submission after another, each handled to the end before the
    next one starts; every submission meets its own collaborators. *)
Fixpoint submit_all (subs : list (Collaborators * FormEvent))
    (st : ViewState) : ViewState :=
  match subs with
  | [] => st
  | (env, formInput) :: subs' =>
      submit_all subs' (view (onSubmit env formInput st))
  end.

(** The error maps handed to the forms of a tree. *)
Definition displayed_errors {A} (t : Node A) : list (gmap string string) :=
  omap (fun e => match prop "validationErrors" (fst e) with
                 | Some (PErrors m) => Some m
                 | _ => None
                 end) (elements Form t).

(** The [isDisabled] given to the inputs and the [isLoading] given to the
    buttons of a tree. *)
Definition input_isDisabled {A} (t : Node A) : list (option PropValue) :=
  map (fun e => prop "isDisabled" (fst e)) (elements Input t).

Definition button_isLoading {A} (t : Node A) : list (option PropValue) :=
  map (fun e => prop "isLoading" (fst e)) (elements Button t).

(** The [name]s of the inputs of a tree. *)
Definition input_names {A} (t : Node A) : list string :=
  omap (fun e => match prop "name" (fst e) with
                 | Some (PString n) => Some n
                 | _ => None
                 end) (elements Input t).


(* ===================================================================== *)
(** ** Facts about [trim] and [toUpperCase]                              *)
(* ===================================================================== *)

Module JsStringFacts.
Import JsString.

Section Alphabet.
Context {C : Type}.
Variable isWhiteSpace : C -> bool.
Variable toUpper : C -> list C.

Local Abbreviation trimStart := (trimStart isWhiteSpace).
Local Abbreviation trimEnd := (trimEnd isWhiteSpace).
Local Abbreviation trim := (trim isWhiteSpace).
Local Abbreviation toUpperCase := (toUpperCase toUpper).
Local Abbreviation ink := (ink isWhiteSpace).
Local Abbreviation tight := (tight isWhiteSpace).
Local Abbreviation upper_stable := (upper_stable toUpper).
Local Abbreviation upper_keeps_ink := (upper_keeps_ink isWhiteSpace toUpper).

Lemma trimStart_head l : ink (head (trimStart l)).
Proof.
  induction l as [|c l IH]; simpl.
  - intros c Hc. discriminate.
  - destruct (isWhiteSpace c) eqn:E; [exact IH|].
    intros d Hd. simpl in Hd. congruence.
Qed.

Lemma trimEnd_last l : ink (last (trimEnd l)).
Proof.
  induction l as [|c l IH]; simpl.
  - intros c Hc. discriminate.
  - destruct (trimEnd l) as [|d r] eqn:E.
    + destruct (isWhiteSpace c) eqn:W; intros x Hx; simpl in Hx; congruence.
    + intros x Hx. apply IH. rewrite <- Hx. reflexivity.
Qed.

Lemma trimEnd_head l : ink (head l) -> ink (head (trimEnd l)).
Proof.
  destruct l as [|c l]; simpl; [auto|].
  intros H. destruct (trimEnd l); [destruct (isWhiteSpace c)|]; simpl; auto.
  intros x Hx. discriminate.
Qed.

Lemma trim_tight l : tight (trim l).
Proof.
  split; [apply trimEnd_head, trimStart_head | apply trimEnd_last].
Qed.

Lemma trimStart_tight l : ink (head l) -> trimStart l = l.
Proof.
  destruct l as [|c l]; simpl; [reflexivity|].
  intros H. rewrite (H c eq_refl). reflexivity.
Qed.

Lemma trimEnd_tight l : ink (last l) -> trimEnd l = l.
Proof.
  induction l as [|c l IH]; simpl; [reflexivity|].
  intros H. destruct l as [|d l].
  - simpl. rewrite (H c eq_refl). reflexivity.
  - rewrite IH by exact H. reflexivity.
Qed.

Lemma tight_trim l : tight l -> trim l = l.
Proof.
  intros [Hh Hl]. unfold trim.
  rewrite trimStart_tight by exact Hh. apply trimEnd_tight, Hl.
Qed.

Lemma trim_idempotent l : trim (trim l) = trim l.
Proof. apply tight_trim, trim_tight. Qed.

Lemma toUpperCase_idempotent l :
  upper_stable -> toUpperCase (toUpperCase l) = toUpperCase l.
Proof.
  intros Hs. unfold toUpperCase.
  assert (G : forall m, (forall d, In d m -> toUpper d = [d]) ->
                        flat_map toUpper m = m).
  { induction m as [|d m IH]; simpl; [reflexivity|].
    intros H. rewrite (H d) by (left; reflexivity).
    simpl. f_equal. apply IH. intros x Hx. apply H. right. exact Hx. }
  apply G. intros d Hd. apply in_flat_map in Hd as (c & _ & Hc).
  exact (Hs c d Hc).
Qed.

Lemma head_app_nonempty (a b : list C) :
  a <> [] -> head (a ++ b) = head a.
Proof. destruct a; [congruence | reflexivity]. Qed.

Lemma toUpperCase_head l :
  upper_keeps_ink -> ink (head l) -> ink (head (toUpperCase l)).
Proof.
  intros Hk. destruct l as [|c l]; simpl; [auto|].
  intros H. destruct (Hk c (H c eq_refl)) as [Hne Hall].
  rewrite head_app_nonempty by exact Hne.
  intros d Hd. apply Hall. destruct (toUpper c); [discriminate|].
  simpl in Hd. injection Hd as ->. left. reflexivity.
Qed.

Lemma last_In (l : list C) d : last l = Some d -> In d l.
Proof.
  induction l as [|c l IH]; simpl; [discriminate|].
  destruct l as [|e l]; [intros [= ->]; left; reflexivity|].
  intros H. right. apply IH. exact H.
Qed.

(** A sequence that ends in ink is not upper-cased to nothing. *)
Lemma toUpperCase_nonempty l :
upper_keeps_ink -> l <> [] -> ink (last l) -> toUpperCase l <> [].
Proof.
  intros Hk. induction l as [|c l IH]; [congruence|].
  intros _ H E. simpl in E. apply app_eq_nil in E as [Ec El].
  destruct l as [|e l].
  - destruct (Hk c (H c eq_refl)) as [Hne _]. contradiction.
  - apply IH; [discriminate | exact H | exact El].
Qed.

Lemma toUpperCase_last l :
upper_keeps_ink -> ink (last l) -> ink (last (toUpperCase l)).
Proof.
  intros Hk. induction l as [|c l IH]; simpl; [auto|].
  intros H. destruct l as [|e l].
  - simpl. rewrite app_nil_r. destruct (Hk c (H c eq_refl)) as [_ Hall].
    intros d Hd. apply Hall, last_In, Hd.
  - specialize (IH H). intros d Hd. rewrite last_app in Hd.
    destruct (last (toUpperCase (e :: l))) as [x|] eqn:E.
    + injection Hd as ->. apply IH. reflexivity.
    + apply last_None in E.
      exfalso. revert E. apply toUpperCase_nonempty;
        [exact Hk | discriminate | exact H].
Qed.

Lemma toUpperCase_tight l :
  upper_keeps_ink -> tight l -> tight (toUpperCase l).
Proof.
  intros Hk [Hh Hl]. split;
    [apply toUpperCase_head | apply toUpperCase_last]; assumption.
Qed.

(** [s.trim().toUpperCase()] applied twice is the same as once. *)
Lemma trim_upper_twice l :
  upper_stable -> upper_keeps_ink ->
  toUpperCase (trim (toUpperCase (trim l))) = toUpperCase (trim l).
Proof.
  intros Hs Hk.
  rewrite (tight_trim (toUpperCase (trim l))).
  - apply toUpperCase_idempotent, Hs.
  - apply toUpperCase_tight; [exact Hk | apply trim_tight].
Qed.
End Alphabet.

End JsStringFacts.

(* ===================================================================== *)
(** ** More on [trim] and [toUpperCase]: padding and case                *)
(* ===================================================================== *)

Module JsStringLaws.
Import JsString JsStringFacts.

Section Alphabet.
Context {C : Type}.
Variable isWhiteSpace : C -> bool.
Variable toUpper : C -> list C.

Local Abbreviation trimStart := (trimStart isWhiteSpace).
Local Abbreviation trimEnd := (trimEnd isWhiteSpace).
Local Abbreviation trim := (trim isWhiteSpace).
Local Abbreviation toUpperCase := (toUpperCase toUpper).
Local Abbreviation ink := (ink isWhiteSpace).
Local Abbreviation upper_keeps_ink := (upper_keeps_ink isWhiteSpace toUpper).
Local Abbreviation upper_fixes_space := (upper_fixes_space isWhiteSpace toUpper).

Lemma trimStart_blank p : forallb isWhiteSpace p = true -> trimStart p = [].
Proof.
  induction p as [|c p IH]; simpl; [reflexivity|].
  intros H. apply andb_true_iff in H as [-> Hp]. exact (IH Hp).
Qed.

Lemma trimEnd_blank q : forallb isWhiteSpace q = true -> trimEnd q = [].
Proof.
  induction q as [|c q IH]; simpl; [reflexivity|].
  intros H. apply andb_true_iff in H as [-> Hq]. rewrite (IH Hq). reflexivity.
Qed.

Lemma trimStart_app l q :
trimStart (l ++ q) =
  match trimStart l with [] => trimStart q | r => r ++ q end.
Proof.
  induction l as [|c l IH]; simpl.
  - destruct (trimStart q); reflexivity.
  - destruct (isWhiteSpace c); [exact IH | reflexivity].
Qed.

Lemma trimEnd_app a b :
trimEnd (a ++ b) =
  match trimEnd b with [] => trimEnd a | r => a ++ r end.
Proof.
  induction a as [|c a IH]; simpl.
  - destruct (trimEnd b); reflexivity.
  - rewrite IH. destruct (trimEnd b) as [|x xs]; [reflexivity|].
    destruct a; reflexivity.
Qed.

(** Padding with white space on either side does not change [trim]. *)
Lemma trim_padding p l q :
forallb isWhiteSpace p = true -> forallb isWhiteSpace q = true ->
trim (p ++ l ++ q) = trim l.
Proof.
  intros Hp Hq. unfold JsString.trim.
  rewrite (trimStart_app p), (trimStart_blank p Hp).
  rewrite trimStart_app. destruct (trimStart l) as [|x xs] eqn:E.
  - rewrite (trimStart_blank q Hq). reflexivity.
  - rewrite trimEnd_app, (trimEnd_blank q Hq). reflexivity.
Qed.

Lemma trimStart_upper l :
upper_fixes_space -> upper_keeps_ink ->
toUpperCase (trimStart l) = trimStart (toUpperCase l).
Proof.
  intros Hf Hk. induction l as [|c l IH]; [reflexivity|].
  simpl. destruct (isWhiteSpace c) eqn:W.
  - rewrite (Hf c W). simpl. rewrite W. exact IH.
  - destruct (Hk c W) as [Hne Hall]. simpl.
    destruct (toUpper c) as [|d ds] eqn:E; [congruence|].
    simpl. rewrite (Hall d) by (left; reflexivity). reflexivity.
Qed.

Lemma trimEnd_inked a :
a <> [] -> (forall d, In d a -> isWhiteSpace d = false) -> trimEnd a = a.
Proof.
  intros Hne Hall. apply trimEnd_tight. intros d Hd.
  apply Hall, last_In, Hd.
Qed.

Lemma trimEnd_upper l :
upper_fixes_space -> upper_keeps_ink ->
toUpperCase (trimEnd l) = trimEnd (toUpperCase l).
Proof.
  intros Hf Hk. induction l as [|c l IH]; [reflexivity|].
  change (JsString.toUpperCase toUpper (c :: l))
    with (toUpper c ++ toUpperCase l).
  rewrite trimEnd_app, <- IH. simpl.
  destruct (trimEnd l) as [|x xs] eqn:E.
  - simpl. destruct (isWhiteSpace c) eqn:W.
    + rewrite (Hf c W). simpl. rewrite W. reflexivity.
    + destruct (Hk c W) as [Hne Hall].
      rewrite (trimEnd_inked _ Hne Hall). simpl. apply app_nil_r.
  - assert (Hn : toUpperCase (x :: xs) <> []).
    { apply (toUpperCase_nonempty isWhiteSpace); [exact Hk | discriminate|].
      rewrite <- E. apply trimEnd_last. }
    destruct (toUpperCase (x :: xs)) as [|y ys] eqn:U; [congruence|].
    simpl. rewrite <- U. reflexivity.
Qed.

(** Upper-casing and trimming can be done in either order. *)
Lemma trim_upper l :
upper_fixes_space -> upper_keeps_ink ->
toUpperCase (trim l) = trim (toUpperCase l).
Proof.
  intros Hf Hk. unfold JsString.trim.
  rewrite (trimEnd_upper _ Hf Hk), (trimStart_upper _ Hf Hk). reflexivity.
Qed.

End Alphabet.

End JsStringLaws.

(* ===================================================================== *)
(** ** The upper-case tables                                             *)
(* ===================================================================== *)

Lemma bmp_upper_ok : forallb bmp_entry_ok bmp_upper = true.
Proof. vm_compute. reflexivity. Qed.

Lemma astral_upper_ok : forallb astral_entry_ok astral_upper = true.
Proof. vm_compute. reflexivity. Qed.

Lemma lower_letters_mapped :
  forallb (fun u => negb (unmapped N.eqb u bmp_upper)) lower_letters = true.
Proof. vm_compute. reflexivity. Qed.

Lemma lower_letters_plain :
  forallb (fun u => negb (is_surrogate u)) lower_letters = true.
Proof. vm_compute. reflexivity. Qed.

Lemma white_space_plain :
  forallb (fun u => negb (is_surrogate u)) white_space = true.
Proof. vm_compute. reflexivity. Qed.

Lemma assoc_In {K V : Type} (eqb : K -> K -> bool) k (t : list (K * V)) v :
  (forall a b, eqb a b = true -> a = b) ->
  assoc eqb k t = Some v -> In (k, v) t.
Proof.
  intros Heq. induction t as [|[k' v'] t IH]; simpl; [discriminate|].
  destruct (eqb k k') eqn:E.
  - intros [= ->]. left. now rewrite (Heq _ _ E).
  - intros H. right. exact (IH H).
Qed.

Lemma pair_eqb_eq p q : pair_eqb p q = true -> p = q.
Proof.
  destruct p as [a b], q as [c d]. unfold pair_eqb. simpl.
  intros H. apply andb_true_iff in H as [H1 H2].
  apply N.eqb_eq in H1, H2. congruence.
Qed.

Lemma in_list_eqb u (l : list N) : existsb (N.eqb u) l = true -> In u l.
Proof.
  intros H. apply existsb_exists in H as (x & Hx & E).
  apply N.eqb_eq in E. now subst.
Qed.

(** A code unit either has no entry and is its own upper case, or has
    an entry that passed the check. *)
Lemma upper_unit_cases u :
  (unmapped N.eqb u bmp_upper = true /\ upper_unit u = [u])
  \/ (bmp_entry_ok (u, upper_unit u) = true
      /\ unmapped N.eqb u bmp_upper = false).
Proof.
  unfold upper_unit, unmapped.
  destruct (assoc N.eqb u bmp_upper) as [ds|] eqn:E; [right | left; auto].
  split; [|reflexivity].
  apply assoc_In in E; [|intros a b; apply N.eqb_eq].
  exact (proj1 (forallb_forall _ _) bmp_upper_ok _ E).
Qed.

Lemma upper_unit_mapped u d :
  unmapped N.eqb u bmp_upper = false -> In d (upper_unit u) ->
  is_surrogate d = false /\ isWhiteSpace d = false /\ isLowerCase d = false
  /\ unmapped N.eqb d bmp_upper = true.
Proof.
  intros Hm Hd. destruct (upper_unit_cases u) as [[Hu _]|[Hok _]];
    [congruence|].
  unfold bmp_entry_ok in Hok. simpl in Hok.
  apply andb_true_iff in Hok as [_ Hall].
  pose proof (proj1 (forallb_forall _ _) Hall d Hd) as H.
  cbv beta in H.
  repeat (apply andb_true_iff in H as [H ?]).
  repeat split; try (apply negb_true_iff; assumption); assumption.
Qed.

Lemma upper_unit_key u :
  unmapped N.eqb u bmp_upper = false ->
  is_surrogate u = false /\ isWhiteSpace u = false.
Proof.
  intros Hm. destruct (upper_unit_cases u) as [[Hu _]|[Hok _]];
    [congruence|].
  unfold bmp_entry_ok in Hok. simpl in Hok.
  repeat (apply andb_true_iff in Hok as [Hok ?]).
  split; apply negb_true_iff; assumption.
Qed.

Lemma unmapped_upper_unit u :
  unmapped N.eqb u bmp_upper = true -> upper_unit u = [u].
Proof.
  unfold upper_unit, unmapped.
  destruct (assoc N.eqb u bmp_upper); [discriminate | reflexivity].
Qed.

Lemma upper_unit_stable u d : In d (upper_unit u) -> upper_unit d = [d].
Proof.
  intros Hd. destruct (unmapped N.eqb u bmp_upper) eqn:Hm.
  - rewrite (unmapped_upper_unit u Hm) in Hd. destruct Hd as [<-|[]].
    exact (unmapped_upper_unit u Hm).
  - apply unmapped_upper_unit. exact (proj2 (proj2 (proj2
      (upper_unit_mapped u d Hm Hd)))).
Qed.

Lemma upper_unit_nonempty u : upper_unit u <> [].
Proof.
  destruct (upper_unit_cases u) as [[_ ->]|[Hok _]]; [discriminate|].
  unfold bmp_entry_ok in Hok. simpl in Hok.
  apply andb_true_iff in Hok as [Hok _].
  apply andb_true_iff in Hok as [_ Hne].
  destruct (upper_unit u); [discriminate Hne | discriminate].
Qed.

Lemma upper_unit_space u : isWhiteSpace u = true -> upper_unit u = [u].
Proof.
  intros Hw. apply unmapped_upper_unit.
  destruct (unmapped N.eqb u bmp_upper) eqn:Hm; [reflexivity|].
  destruct (upper_unit_key u Hm) as [_ H]. congruence.
Qed.

Lemma upper_unit_ink u d :
  isWhiteSpace u = false -> In d (upper_unit u) -> isWhiteSpace d = false.
Proof.
  intros Hw Hd. destruct (unmapped N.eqb u bmp_upper) eqn:Hm.
  - rewrite (unmapped_upper_unit u Hm) in Hd. destruct Hd as [<-|[]].
    exact Hw.
  - exact (proj1 (proj2 (upper_unit_mapped u d Hm Hd))).
Qed.

Lemma upper_unit_surrogate u :
  is_surrogate u = true -> upper_unit u = [u].
Proof.
  intros Hs. apply unmapped_upper_unit.
  destruct (unmapped N.eqb u bmp_upper) eqn:Hm; [reflexivity|].
  destruct (upper_unit_key u Hm) as [H _]. congruence.
Qed.

Lemma upper_unit_no_surrogate u d :
  is_surrogate u = false -> In d (upper_unit u) -> is_surrogate d = false.
Proof.
  intros Hs Hd. destruct (unmapped N.eqb u bmp_upper) eqn:Hm.
  - rewrite (unmapped_upper_unit u Hm) in Hd. destruct Hd as [<-|[]].
    exact Hs.
  - exact (proj1 (upper_unit_mapped u d Hm Hd)).
Qed.

Lemma upper_unit_no_lower u d :
  In d (upper_unit u) -> isLowerCase d = false.
Proof.
  intros Hd. destruct (unmapped N.eqb u bmp_upper) eqn:Hm.
  - rewrite (unmapped_upper_unit u Hm) in Hd. destruct Hd as [<-|[]].
    destruct (isLowerCase u) eqn:Hl; [|reflexivity].
    apply in_list_eqb in Hl.
    pose proof (proj1 (forallb_forall _ _) lower_letters_mapped u Hl) as H.
    cbv beta in H. rewrite Hm in H. discriminate H.
  - exact (proj1 (proj2 (proj2 (upper_unit_mapped u d Hm Hd)))).
Qed.

Lemma high_not_low u : is_high u = true -> is_low u = false.
Proof.
  unfold is_high, is_low. intros H.
  apply andb_true_iff in H as [_ H]. apply N.leb_le in H.
  apply andb_false_iff. left. apply N.leb_gt. lia.
Qed.

Lemma white_space_no_surrogate u :
  isWhiteSpace u = true -> is_surrogate u = false.
Proof.
  intros H. apply in_list_eqb in H.
  pose proof (proj1 (forallb_forall _ _) white_space_plain u H) as Hp.
  cbv beta in Hp.
  now apply negb_true_iff.
Qed.

Lemma upper_pair_cases h l :
  upper_pair h l = (h, l) /\ unmapped pair_eqb (h, l) astral_upper = true
  \/ astral_entry_ok (h, l, upper_pair h l) = true.
Proof.
  unfold upper_pair, unmapped.
  destruct (assoc pair_eqb (h, l) astral_upper) as [p|] eqn:E;
    [right | left; auto].
  apply assoc_In in E; [|exact pair_eqb_eq].
  exact (proj1 (forallb_forall _ _) astral_upper_ok _ E).
Qed.

Lemma unmapped_upper_pair h l :
  unmapped pair_eqb (h, l) astral_upper = true -> upper_pair h l = (h, l).
Proof.
  unfold upper_pair, unmapped.
  destruct (assoc pair_eqb (h, l) astral_upper); [discriminate | reflexivity].
Qed.

Lemma upper_pair_stable h l :
  upper_pair (fst (upper_pair h l)) (snd (upper_pair h l)) = upper_pair h l.
Proof.
  destruct (upper_pair_cases h l) as [[E Hm]|Hok].
  - rewrite E. simpl. exact E.
  - unfold astral_entry_ok in Hok. simpl in Hok.
    apply andb_true_iff in Hok as [_ Hm].
    destruct (upper_pair h l) as [h' l']. simpl in *.
    exact (unmapped_upper_pair h' l' Hm).
Qed.

Lemma upper_pair_valid h l :
  is_high h && is_low l = true ->
  is_high (fst (upper_pair h l)) && is_low (snd (upper_pair h l)) = true.
Proof.
  intros Hv. destruct (upper_pair_cases h l) as [[E _]|Hok].
  - rewrite E. exact Hv.
  - unfold astral_entry_ok in Hok. simpl in Hok.
    apply andb_true_iff in Hok as [Hok _].
    apply andb_true_iff in Hok as [Hok Hl'].
    apply andb_true_iff in Hok as [_ Hh'].
    now rewrite Hh', Hl'.
Qed.

(** The three properties of the tables the generic lemmas ask for. *)
Lemma unicode_upper_stable : JsString.upper_stable toUpper.
Proof.
  intros c d Hd. destruct c as [u|h l]; simpl in Hd.
  - apply in_map_iff in Hd as (x & <- & Hx). simpl.
    now rewrite (upper_unit_stable u x Hx).
  - destruct Hd as [<-|[]]. simpl. now rewrite upper_pair_stable.
Qed.

Lemma unicode_upper_keeps_ink : JsString.upper_keeps_ink isWhiteSpaceCP toUpper.
Proof.
  intros c Hc. destruct c as [u|h l]; simpl in *.
  - split.
    + intros E. apply map_eq_nil in E. exact (upper_unit_nonempty u E).
    + intros d Hd. apply in_map_iff in Hd as (x & <- & Hx). simpl.
      exact (upper_unit_ink u x Hc Hx).
  - split; [discriminate|]. intros d [<-|[]]. reflexivity.
Qed.

Lemma unicode_upper_fixes_space : upper_fixes_space isWhiteSpaceCP toUpper.
Proof.
  intros c Hc. destruct c as [u|h l]; simpl in *; [|discriminate].
  now rewrite (upper_unit_space u Hc).
Qed.

(* ===================================================================== *)
(** ** Code units and code points                                        *)
(* ===================================================================== *)

(** Induction along the way a string is read as code points: a pair of
    surrogates at once, any other code unit alone. *)
Lemma code_units_ind (P : list N -> Prop) :
  P [] ->
  (forall h l t, is_high h && is_low l = true -> P t -> P (h :: l :: t)) ->
  (forall u t, pairs u t = false -> P t -> P (u :: t)) ->
  forall s, P s.
Proof.
  intros Hnil Hpair Hone s.
  assert (G : P s /\ forall u, P (u :: s)); [|exact (proj1 G)].
  induction s as [|a s [IH1 IH2]].
  - split; [exact Hnil|]. intros u. apply Hone; [reflexivity | exact Hnil].
  - split; [apply IH2|]. intros u.
    destruct (is_high u && is_low a) eqn:E.
    + apply Hpair; assumption.
    + apply Hone; [exact E | apply IH2].
Qed.

Lemma StringToCodePoints_pair h l t :
  is_high h && is_low l = true ->
  StringToCodePoints (h :: l :: t) = Surrogates h l :: StringToCodePoints t.
Proof. intros H. simpl. now rewrite H. Qed.

Lemma StringToCodePoints_single u t :
  pairs u t = false ->
  StringToCodePoints (u :: t) = Single u :: StringToCodePoints t.
Proof.
  destruct t as [|l t]; [reflexivity|]. simpl. intros H. now rewrite H.
Qed.

(** Writing the code points of a string back gives the string. *)
Lemma CodePointsToString_StringToCodePoints s :
  CodePointsToString (StringToCodePoints s) = s.
Proof.
  induction s as [|h l t Hp IH|u t Hp IH] using code_units_ind.
  - reflexivity.
  - rewrite (StringToCodePoints_pair h l t Hp).
    change (h :: l :: CodePointsToString (StringToCodePoints t) = h :: l :: t).
    now rewrite IH.
  - rewrite (StringToCodePoints_single u t Hp).
    change (u :: CodePointsToString (StringToCodePoints t) = u :: t).
    now rewrite IH.
Qed.

Lemma starts_low_StringToCodePoints u t :
  starts_low (StringToCodePoints t) = true -> is_high u = true ->
  pairs u t = true.
Proof.
  destruct t as [|l t]; [discriminate|].
  intros Hs Hu. simpl in *. rewrite Hu. simpl.
  destruct t as [|l' t]; simpl in Hs; [exact Hs|].
  destruct (is_high l && is_low l') eqn:E; simpl in Hs;
    [discriminate | exact Hs].
Qed.

Lemma well_formed_StringToCodePoints s :
  well_formed (StringToCodePoints s) = true.
Proof.
  induction s as [|h l t Hp IH|u t Hp IH] using code_units_ind.
  - reflexivity.
  - rewrite (StringToCodePoints_pair h l t Hp). simpl. now rewrite Hp, IH.
  - rewrite (StringToCodePoints_single u t Hp). simpl. rewrite IH, andb_true_r.
    apply negb_true_iff.
    destruct (is_high u) eqn:Hu; [|reflexivity]. simpl.
    destruct (starts_low (StringToCodePoints t)) eqn:Hs; [|reflexivity].
    rewrite (starts_low_StringToCodePoints u t Hs Hu) in Hp. discriminate Hp.
Qed.

(** Reading back what well-placed code points were written as gives
    the same code points. *)
Lemma StringToCodePoints_CodePointsToString cps :
  well_formed cps = true ->
  StringToCodePoints (CodePointsToString cps) = cps.
Proof.
  induction cps as [|c cps IH]; [reflexivity|].
  destruct c as [u|h l]; simpl; intros H.
  - apply andb_true_iff in H as [Hb Hw].
    change (StringToCodePoints (u :: CodePointsToString cps)
            = Single u :: cps).
    rewrite StringToCodePoints_single; [now rewrite (IH Hw)|].
    apply negb_true_iff in Hb.
    destruct cps as [|[l|h' l'] cps]; simpl in *; [reflexivity | exact Hb |].
    apply andb_true_iff in Hw as [Hw _].
    apply andb_true_iff in Hw as [Hh' _].
    rewrite (high_not_low h' Hh'). apply andb_false_r.
  - apply andb_true_iff in H as [Hv Hw].
    change (StringToCodePoints (h :: l :: CodePointsToString cps)
            = Surrogates h l :: cps).
    rewrite (StringToCodePoints_pair h l _ Hv). now rewrite (IH Hw).
Qed.

(** Trimming keeps the surrogates well placed. *)
Lemma well_formed_tail c cps :
  well_formed (c :: cps) = true -> well_formed cps = true.
Proof.
  destruct c; simpl; intros H; apply andb_true_iff in H as [_ H]; exact H.
Qed.

Lemma well_formed_trimStart cps :
  well_formed cps = true ->
  well_formed (JsString.trimStart isWhiteSpaceCP cps) = true.
Proof.
  induction cps as [|c cps IH]; [reflexivity|]. simpl.
  destruct (isWhiteSpaceCP c); [|auto].
  intros H. apply IH. exact (well_formed_tail c cps H).
Qed.

Lemma trimEnd_head_eq {C : Type} (ws : C -> bool) l x xs :
  JsString.trimEnd ws l = x :: xs -> head l = Some x.
Proof.
  destruct l as [|c l]; simpl; [discriminate|].
  destruct (JsString.trimEnd ws l); [destruct (ws c)|]; congruence.
Qed.

Lemma starts_low_trimEnd cps :
  starts_low (JsString.trimEnd isWhiteSpaceCP cps) = true ->
  starts_low cps = true.
Proof.
  destruct (JsString.trimEnd isWhiteSpaceCP cps) as [|x xs] eqn:E;
    [discriminate|].
  apply trimEnd_head_eq in E. destruct cps as [|c cps]; [discriminate|].
  simpl in E. injection E as ->. destruct x; auto.
Qed.

Lemma well_formed_trimEnd cps :
  well_formed cps = true ->
  well_formed (JsString.trimEnd isWhiteSpaceCP cps) = true.
Proof.
  induction cps as [|c cps IH]; [reflexivity|]. intros H.
  pose proof (IH (well_formed_tail c cps H)) as Hw. simpl.
  destruct (JsString.trimEnd isWhiteSpaceCP cps) as [|x xs] eqn:E.
  - destruct (isWhiteSpaceCP c); [reflexivity|].
    destruct c as [u|h l]; simpl in *.
    + now rewrite andb_false_r.
    + apply andb_true_iff in H as [H _]. now rewrite H.
  - destruct c as [u|h l]; simpl in H |- *.
    + apply andb_true_iff in H as [Hb _].
      change (negb (is_high u && starts_low (x :: xs))
              && well_formed (x :: xs) = true).
      rewrite Hw, andb_true_r. apply negb_true_iff.
      apply negb_true_iff in Hb.
      destruct (starts_low (x :: xs)) eqn:Hs; [|apply andb_false_r].
      rewrite <- E in Hs. apply starts_low_trimEnd in Hs.
      now rewrite Hs in Hb.
    + apply andb_true_iff in H as [Hv _].
      change (is_high h && is_low l && well_formed (x :: xs) = true).
      now rewrite Hv, Hw.
Qed.

Lemma well_formed_trim cps :
  well_formed cps = true ->
  well_formed (JsString.trim isWhiteSpaceCP cps) = true.
Proof.
  intros H. apply well_formed_trimEnd, well_formed_trimStart, H.
Qed.

(** Upper-casing keeps the surrogates well placed. *)
Lemma well_formed_singles ds r :
  (forall d, In d ds -> is_surrogate d = false) ->
  well_formed r = true -> well_formed (map Single ds ++ r) = true.
Proof.
  intros Hd Hr. induction ds as [|d ds IH]; [exact Hr|].
  simpl. rewrite IH by (intros x Hx; apply Hd; right; exact Hx).
  rewrite andb_true_r. apply negb_true_iff.
  pose proof (Hd d (or_introl eq_refl)) as Hs.
  unfold is_surrogate in Hs. apply orb_false_iff in Hs as [-> _].
  reflexivity.
Qed.

Lemma starts_low_toUpperCase cps :
  starts_low (JsString.toUpperCase toUpper cps) = true ->
  starts_low cps = true.
Proof.
  destruct cps as [|[u|h l] cps]; [discriminate | | discriminate].
  unfold JsString.toUpperCase. cbn [flat_map toUpper].
  destruct (is_surrogate u) eqn:Hs.
  - rewrite (upper_unit_surrogate u Hs). simpl. auto.
  - pose proof (upper_unit_nonempty u) as Hne.
    destruct (upper_unit u) as [|d ds] eqn:E; [congruence|].
    simpl. intros Hl.
    assert (Hd : is_surrogate d = false).
    { apply (upper_unit_no_surrogate u d Hs). rewrite E. now left. }
    unfold is_surrogate in Hd. apply orb_false_iff in Hd as [_ Hd].
    congruence.
Qed.

Lemma well_formed_toUpperCase cps :
  well_formed cps = true ->
  well_formed (JsString.toUpperCase toUpper cps) = true.
Proof.
  induction cps as [|c cps IH]; [reflexivity|]. intros H.
  pose proof (IH (well_formed_tail c cps H)) as Hw.
  unfold JsString.toUpperCase in *. cbn [flat_map].
  destruct c as [u|h l]; cbn [toUpper].
  - destruct (is_surrogate u) eqn:Hs.
    + rewrite (upper_unit_surrogate u Hs). simpl. rewrite Hw, andb_true_r.
      simpl in H. apply andb_true_iff in H as [Hb _].
      apply negb_true_iff. apply negb_true_iff in Hb.
      destruct (starts_low (flat_map toUpper cps)) eqn:Hl;
        [|apply andb_false_r].
      apply (starts_low_toUpperCase cps) in Hl. now rewrite Hl in Hb.
    + apply well_formed_singles; [|exact Hw].
      intros d Hd. exact (upper_unit_no_surrogate u d Hs Hd).
  - simpl in H. apply andb_true_iff in H as [Hv _].
    simpl. now rewrite (upper_pair_valid h l Hv), Hw.
Qed.

(** Trimming code units and trimming code points agree. *)
Lemma not_space_high u : is_high u = true -> isWhiteSpace u = false.
Proof.
  intros H. destruct (isWhiteSpace u) eqn:W; [|reflexivity].
  apply white_space_no_surrogate in W. unfold is_surrogate in W.
  rewrite H in W. discriminate W.
Qed.

Lemma not_space_low u : is_low u = true -> isWhiteSpace u = false.
Proof.
  intros H. destruct (isWhiteSpace u) eqn:W; [|reflexivity].
  apply white_space_no_surrogate in W. unfold is_surrogate in W.
  rewrite H, orb_true_r in W. discriminate W.
Qed.

Lemma StringToCodePoints_trimStart s :
  StringToCodePoints (JsString.trimStart isWhiteSpace s)
  = JsString.trimStart isWhiteSpaceCP (StringToCodePoints s).
Proof.
  induction s as [|h l t Hp IH|u t Hp IH] using code_units_ind.
  - reflexivity.
  - pose proof Hp as Hp'. apply andb_true_iff in Hp' as [Hh _].
    rewrite (StringToCodePoints_pair h l t Hp). simpl.
    rewrite (not_space_high h Hh). exact (StringToCodePoints_pair h l t Hp).
  - rewrite (StringToCodePoints_single u t Hp). simpl.
    destruct (isWhiteSpace u); [exact IH|].
    exact (StringToCodePoints_single u t Hp).
Qed.

Lemma trimEnd_cons_ink {C : Type} (ws : C -> bool) c l :
  ws c = false ->
  JsString.trimEnd ws (c :: l) = c :: JsString.trimEnd ws l.
Proof.
  intros H. simpl. rewrite H. destruct (JsString.trimEnd ws l); reflexivity.
Qed.

Lemma StringToCodePoints_nil s : StringToCodePoints s = [] -> s = [].
Proof.
  destruct s as [|h [|l t]]; simpl; [reflexivity | discriminate |].
  destruct (is_high h && is_low l); discriminate.
Qed.

Lemma StringToCodePoints_trimEnd s :
  StringToCodePoints (JsString.trimEnd isWhiteSpace s)
  = JsString.trimEnd isWhiteSpaceCP (StringToCodePoints s).
Proof.
  induction s as [|h l t Hp IH|u t Hp IH] using code_units_ind.
  - reflexivity.
  - pose proof Hp as Hp'. apply andb_true_iff in Hp' as [Hh Hl].
    rewrite (StringToCodePoints_pair h l t Hp).
    rewrite (trimEnd_cons_ink isWhiteSpace h _ (not_space_high h Hh)).
    rewrite (trimEnd_cons_ink isWhiteSpace l _ (not_space_low l Hl)).
    rewrite (trimEnd_cons_ink isWhiteSpaceCP (Surrogates h l) _ eq_refl).
    rewrite (StringToCodePoints_pair h l _ Hp). now rewrite IH.
  - rewrite (StringToCodePoints_single u t Hp). simpl. rewrite <- IH.
    destruct (JsString.trimEnd isWhiteSpace t) as [|x xs] eqn:E.
    + simpl. destruct (isWhiteSpace u); reflexivity.
    + assert (Hx : pairs u (x :: xs) = false).
      { apply trimEnd_head_eq in E. destruct t as [|y t]; [discriminate|].
        simpl in E. injection E as ->. exact Hp. }
      rewrite (StringToCodePoints_single u (x :: xs) Hx).
      destruct (StringToCodePoints (x :: xs)) eqn:F; [|reflexivity].
      apply StringToCodePoints_nil in F. discriminate F.
Qed.

Lemma StringToCodePoints_trim s :
  StringToCodePoints (trim s)
  = JsString.trim isWhiteSpaceCP (StringToCodePoints s).
Proof.
  unfold trim, JsString.trim.
  now rewrite StringToCodePoints_trimEnd, StringToCodePoints_trimStart.
Qed.

(** [normalise], read on code points. *)
Lemma normalise_unfold s :
  StringToCodePoints (normalise s)
  = JsString.toUpperCase toUpper
      (JsString.trim isWhiteSpaceCP (StringToCodePoints s)).
Proof.
  unfold normalise, toUpperCase.
  rewrite StringToCodePoints_CodePointsToString.
  - now rewrite StringToCodePoints_trim.
  - apply well_formed_toUpperCase, well_formed_StringToCodePoints.
Qed.

Lemma StringToCodePoints_inj s1 s2 :
  StringToCodePoints s1 = StringToCodePoints s2 -> s1 = s2.
Proof.
  intros H. rewrite <- (CodePointsToString_StringToCodePoints s1).
  rewrite <- (CodePointsToString_StringToCodePoints s2). now rewrite H.
Qed.

Lemma toUpperCase_unfold s :
  StringToCodePoints (toUpperCase s)
  = JsString.toUpperCase toUpper (StringToCodePoints s).
Proof.
  unfold toUpperCase. apply StringToCodePoints_CodePointsToString.
  apply well_formed_toUpperCase, well_formed_StringToCodePoints.
Qed.

Lemma normalise_idempotent s : normalise (normalise s) = normalise s.
Proof.
  apply StringToCodePoints_inj.
  rewrite (normalise_unfold (normalise s)), !normalise_unfold.
  apply JsStringFacts.trim_upper_twice;
    [exact unicode_upper_stable | exact unicode_upper_keeps_ink].
Qed.

Example normalise_padded : normalise (js "  abCde   ") = js "ABCDE".
Proof. reflexivity. Qed.

(** No-break space, byte-order mark and line separator are trimmed;
    sharp s becomes two letters; a supplementary letter (a Deseret one,
    written as two surrogates) is upper-cased as one code point and a
    lone surrogate is left alone. *)
Example normalise_unicode_space :
  normalise ([160] ++ js "abcde" ++ [65279; 8232])%N = js "ABCDE".
Proof. reflexivity. Qed.

Example normalise_sharp_s : normalise [223]%N = js "SS".
Proof. reflexivity. Qed.

Example normalise_supplementary :
  normalise [233; 55297; 56360; 55297]%N = [201; 55297; 56320; 55297]%N.
Proof. reflexivity. Qed.
Example run_trivia :
  onSubmit scenario (submit (js " abcde ")) initialView =
  (Normal tt, mkView false ∅,
   [ EPreventDefault;
     EConsoleLog [LString (js "Provided game ID: ABCDE")];
     ESetIsLoading true;
     ESetErrors ∅;
     EGetGameMetadata (js "ABCDE");
     EAwait (mkView true ∅);
     EConsoleLog [LString (js "gameMetadata");
                  LValue (JsObject (mkMetadata (js "trivia")))];
     ERouterPush (js "/trivia/ABCDE");
     ESetIsLoading false ]).
Proof. reflexivity. Qed.

Example run_null :
  onSubmit scenario (submit (js "zzzzz")) (mkView false shape_error) =
  (Normal tt, mkView false invalid_error,
   [ EPreventDefault;
     EConsoleLog [LString (js "Provided game ID: ZZZZZ")];
     ESetIsLoading true;
     ESetErrors ∅;
     EGetGameMetadata (js "ZZZZZ");
     EAwait (mkView true ∅);
     EConsoleLog [LString (js "gameMetadata"); LValue JsNull];
     ESetErrors invalid_error;
     ESetIsLoading false ]).
Proof. reflexivity. Qed.

Example run_rejected :
  onSubmit scenario (submit (js "QQQQQ")) initialView =
  (Normal tt, mkView false invalid_error,
   [ EPreventDefault;
     EConsoleLog [LString (js "Provided game ID: QQQQQ")];
     ESetIsLoading true;
     ESetErrors ∅;
     EGetGameMetadata (js "QQQQQ");
     EAwait (mkView true ∅);
     EConsoleLog [LError "network failure"];
     ESetErrors invalid_error;
     ESetIsLoading false ]).
Proof. reflexivity. Qed.

Example run_malformed :
  onSubmit scenario (submit (js "abc1")) initialView =
  (Normal tt, mkView false shape_error,
   [ EPreventDefault;
     EConsoleLog [LString (js "Provided game ID: ABC1")];
     ESetErrors shape_error ]).
Proof. reflexivity. Qed.

Example run_broken_router :
  onSubmit scenario_broken_router (submit (js "ABCDE")) initialView =
  (Normal tt, mkView false invalid_error,
   [ EPreventDefault;
     EConsoleLog [LString (js "Provided game ID: ABCDE")];
     ESetIsLoading true;
     ESetErrors ∅;
     EGetGameMetadata (js "ABCDE");
     EAwait (mkView true ∅);
     EConsoleLog [LString (js "gameMetadata");
                  LValue (JsObject (mkMetadata (js "trivia")))];
     ERouterPush (js "/trivia/ABCDE");
     EConsoleLog [LError "navigation failed"];
     ESetErrors invalid_error;
     ESetIsLoading false ]).
Proof. reflexivity. Qed.

Lemma js_eqb_refl s : js_eqb s s = true.
Proof.
  induction s as [|u s IH]; [reflexivity|]. simpl.
  now rewrite N.eqb_refl, IH.
Qed.

(* ===================================================================== *)
(** ** The runs of [onSubmit], path by path                              *)
(* ===================================================================== *)

Section Runs.
Context (env : Collaborators) (formInput : FormEvent) (st : ViewState).

Local Abbreviation gameID := (submitted_gameID (currentTarget formInput)).

(** What every validated run does before it is suspended. *)
Local Abbreviation preamble :=
  [ EPreventDefault;
    EConsoleLog [LString (js "Provided game ID: " +:+ gameID)];
    ESetIsLoading true;
    ESetErrors ∅;
    EGetGameMetadata gameID;
    EAwait (mkView true ∅) ].

Ltac step_handler :=
  cbv [negb mbind Handler_bind try_catch_finally call_getGameMetadata await
       mret Handler_ret emit preventDefault console_log setIsLoading setErrors
       call_router_push get_game_type truthy app errors isLoading];
  cbv iota beta.

Lemma onSubmit_malformed :
  validateGameID env gameID = false ->
  onSubmit env formInput st =
  (Normal tt, mkView (isLoading st) shape_error,
   [ EPreventDefault;
     EConsoleLog [LString (js "Provided game ID: " +:+ gameID)];
     ESetErrors shape_error ]).
Proof.
  intros H. unfold onSubmit. cbv zeta. rewrite H. reflexivity.
Qed.

Lemma onSubmit_found md :
  validateGameID env gameID = true ->
  getGameMetadata env gameID = Resolved (JsObject md) ->
  router_push env (js "/" +:+ game_type md +:+ js "/" +:+ gameID) = None ->
  onSubmit env formInput st =
  (Normal tt, mkView false ∅,
   preamble ++
   [ EConsoleLog [LString (js "gameMetadata"); LValue (JsObject md)];
     ERouterPush (js "/" +:+ game_type md +:+ js "/" +:+ gameID);
     ESetIsLoading false ]).
Proof.
  intros H1 H2 H3. unfold onSubmit. cbv zeta. rewrite H1.
  step_handler. rewrite H2. step_handler. rewrite H3. reflexivity.
Qed.

Lemma onSubmit_push_throws md e :
  validateGameID env gameID = true ->
  getGameMetadata env gameID = Resolved (JsObject md) ->
  router_push env (js "/" +:+ game_type md +:+ js "/" +:+ gameID) = Some e ->
  onSubmit env formInput st =
  (Normal tt, mkView false invalid_error,
   preamble ++
   [ EConsoleLog [LString (js "gameMetadata"); LValue (JsObject md)];
     ERouterPush (js "/" +:+ game_type md +:+ js "/" +:+ gameID);
     EConsoleLog [LError e];
     ESetErrors invalid_error;
     ESetIsLoading false ]).
Proof.
  intros H1 H2 H3. unfold onSubmit. cbv zeta. rewrite H1.
  step_handler. rewrite H2. step_handler. rewrite H3. reflexivity.
Qed.

Lemma onSubmit_falsy v :
  validateGameID env gameID = true ->
  getGameMetadata env gameID = Resolved v ->
  truthy v = false ->
  onSubmit env formInput st =
  (Normal tt, mkView false invalid_error,
   preamble ++
   [ EConsoleLog [LString (js "gameMetadata"); LValue v];
     ESetErrors invalid_error;
     ESetIsLoading false ]).
Proof.
  intros H1 H2 H3. unfold onSubmit. cbv zeta. rewrite H1.
  step_handler. rewrite H2.
  destruct v; try discriminate H3; reflexivity.
Qed.

Lemma onSubmit_rejected e :
  validateGameID env gameID = true ->
  getGameMetadata env gameID = Rejected e ->
  onSubmit env formInput st =
  (Normal tt, mkView false invalid_error,
   preamble ++
   [ EConsoleLog [LError e];
     ESetErrors invalid_error;
     ESetIsLoading false ]).
Proof.
  intros H1 H2. unfold onSubmit. cbv zeta. rewrite H1.
  step_handler. rewrite H2. reflexivity.
Qed.

(** Every validated run is the preamble followed by one of four endings,
    and all of them complete normally with the loading flag down. *)
Lemma onSubmit_validated :
  validateGameID env gameID = true ->
  exists ending errs,
    onSubmit env formInput st =
      (Normal tt, mkView false errs, preamble ++ ending ++ [ESetIsLoading false])
    /\ lookups ending = []
    /\ loading_writes ending = []
    /\ inflight ending = []
    /\ (error_writes ending = [] /\ errs = ∅
        \/ error_writes ending = [invalid_error] /\ errs = invalid_error).
Proof.
  intros Hv.
  destruct (getGameMetadata env gameID) as [v|e] eqn:Hl.
  - destruct (truthy v) eqn:Ht.
    + destruct v as [| |md]; try discriminate Ht.
      destruct (router_push env (js "/" +:+ game_type md +:+ js "/" +:+ gameID))
        as [e|] eqn:Hp.
      * eexists [_; _; _; _], _.
        split; [apply (onSubmit_push_throws md e Hv Hl Hp)|].
        repeat split. right. split; reflexivity.
      * eexists [_; _], _.
        split; [apply (onSubmit_found md Hv Hl Hp)|].
        repeat split. left. split; reflexivity.
    + eexists [_; _], _.
      split; [apply (onSubmit_falsy v Hv Hl Ht)|].
      repeat split. right. split; reflexivity.
  - eexists [_; _], _.
    split; [apply (onSubmit_rejected e Hv Hl)|].
    repeat split. right. split; reflexivity.
Qed.

End Runs.

(* ===================================================================== *)
(** ** Properties of the submit handler                                  *)
(* ===================================================================== *)

(** Split a validated run into its four paths and rewrite the run with
    the equation of each. *)
Ltac onSubmit_paths env formInput st Hv :=
  let g := constr:(submitted_gameID (currentTarget formInput)) in
  let Hl := fresh "Hl" in
  let Hp := fresh "Hp" in
  let md := fresh "md" in
  let e := fresh "e" in
  destruct (getGameMetadata env g) as [[| |md]|e] eqn:Hl;
  [ rewrite (onSubmit_falsy env formInput st JsNull Hv Hl eq_refl)
  | rewrite (onSubmit_falsy env formInput st JsUndefined Hv Hl eq_refl)
  | destruct (router_push env (js "/" +:+ game_type md +:+ js "/" +:+ g))
      as [e|] eqn:Hp;
    [ rewrite (onSubmit_push_throws env formInput st md e Hv Hl Hp)
    | rewrite (onSubmit_found env formInput st md Hv Hl Hp) ]
  | rewrite (onSubmit_rejected env formInput st e Hv Hl) ].

(** C1: when the trimmed, upper-cased input fails [validateGameID], the
    handler sets the error map to exactly
    [{GameID: "Game IDs need to be a 5 letter string."}], makes no call to
    [getGameMetadata] and never sets the loading flag (so never to true);
    it returns without having been suspended. *)
Theorem onSubmit_rejects_malformed_id env formInput st :
  validateGameID env (submitted_gameID (currentTarget formInput)) = false ->
  completion (onSubmit env formInput st) = Normal tt
  /\ errors (view (onSubmit env formInput st))
     = {[ "GameID" := "Game IDs need to be a 5 letter string." ]}
  /\ lookups (trace (onSubmit env formInput st)) = []
  /\ loading_writes (trace (onSubmit env formInput st)) = []
  /\ inflight (trace (onSubmit env formInput st)) = []
  /\ isLoading (view (onSubmit env formInput st)) = isLoading st.
Proof.
  intros H. rewrite (onSubmit_malformed env formInput st H).
  repeat split.
Qed.

Lemma onSubmit_rejects_malformed_id_witness :
  validateGameID scenario (submitted_gameID (currentTarget (submit (js "abc1"))))
  = false
  /\ errors (view (onSubmit scenario (submit (js "abc1")) initialView))
     = {[ "GameID" := "Game IDs need to be a 5 letter string." ]}
  /\ lookups (trace (onSubmit scenario (submit (js "abc1")) initialView)) = [].
Proof.
  split; [reflexivity|].
  destruct (onSubmit_rejects_malformed_id scenario (submit (js "abc1")) initialView
              eq_refl) as (_ & He & Hn & _).
  split; [exact He | exact Hn].
Defined.

(** C2: when the form holds a text as [GameID], that text trimmed and
    upper-cased passes validation and [getGameMetadata], called with it,
    resolves to a metadata object, [router.push] is called exactly once,
    with [/{game_type}/{gameID}] where [game_type] is the metadata's and
    [gameID] is the text trimmed and upper-cased; the loading flag is
    false when the handler is done. *)
Theorem onSubmit_navigates_to_game env formInput text st md :
  FormData_get "GameID" (currentTarget formInput) = Some (EntryString text) ->
  validateGameID env (toUpperCase (trim text)) = true ->
  getGameMetadata env (toUpperCase (trim text)) = Resolved (JsObject md) ->
  pushes (trace (onSubmit env formInput st))
    = [ js "/" +:+ game_type md +:+ js "/" +:+ toUpperCase (trim text) ]
  /\ lookups (trace (onSubmit env formInput st)) = [ toUpperCase (trim text) ]
  /\ isLoading (view (onSubmit env formInput st)) = false
  /\ completion (onSubmit env formInput st) = Normal tt.
Proof.
  intros Hf Hv Hm.
  assert (E : submitted_gameID (currentTarget formInput)
              = toUpperCase (trim text))
    by (unfold submitted_gameID; now rewrite Hf).
  rewrite <- E in Hv, Hm |- *.
  destruct (router_push env (js "/" +:+ game_type md +:+ js "/"
              +:+ submitted_gameID (currentTarget formInput)))
    as [e|] eqn:Hp.
  - rewrite (onSubmit_push_throws env formInput st md e Hv Hm Hp).
    repeat split.
  - rewrite (onSubmit_found env formInput st md Hv Hm Hp).
    repeat split.
Qed.

Lemma onSubmit_navigates_to_game_witness :
  toUpperCase (trim (js " abcde ")) = js "ABCDE"
  /\ pushes (trace (onSubmit scenario (submit (js " abcde ")) initialView))
     = [ js "/trivia/ABCDE" ]
  /\ lookups (trace (onSubmit scenario (submit (js " abcde ")) initialView))
     = [ js "ABCDE" ]
  /\ isLoading (view (onSubmit scenario (submit (js " abcde ")) initialView))
     = false.
Proof.
  split; [reflexivity|].
  destruct (onSubmit_navigates_to_game scenario (submit (js " abcde "))
              (js " abcde ") initialView (mkMetadata (js "trivia"))
              eq_refl eq_refl eq_refl) as (Hp & Hk & Hl & _).
  split; [exact Hp | split; [exact Hk | exact Hl]].
Defined.

(** C3: when the input passes validation and the lookup resolves to a
    falsy value or is rejected, the error map becomes
    [{GameID: "Invalid game ID"}] and [router.push] is not called; the
    view state the handler leaves is the same for both kinds of failure. *)
Theorem onSubmit_reports_invalid_game env formInput st :
  validateGameID env (submitted_gameID (currentTarget formInput)) = true ->
  lookup_failed
    (getGameMetadata env (submitted_gameID (currentTarget formInput))) = true ->
  view (onSubmit env formInput st)
    = mkView false {[ "GameID" := "Invalid game ID" ]}
  /\ pushes (trace (onSubmit env formInput st)) = []
  /\ completion (onSubmit env formInput st) = Normal tt.
Proof.
  intros Hv Hf.
  destruct (getGameMetadata env (submitted_gameID (currentTarget formInput)))
    as [v|e] eqn:Hl; simpl in Hf.
  - apply negb_true_iff in Hf.
    rewrite (onSubmit_falsy env formInput st v Hv Hl Hf). repeat split.
  - rewrite (onSubmit_rejected env formInput st e Hv Hl). repeat split.
Qed.

Lemma onSubmit_reports_invalid_game_witness :
  (view (onSubmit scenario (submit (js "ZZZZZ")) initialView)
     = mkView false {[ "GameID" := "Invalid game ID" ]}
   /\ pushes (trace (onSubmit scenario (submit (js "ZZZZZ")) initialView)) = [])
  /\ (view (onSubmit scenario (submit (js "QQQQQ")) initialView)
        = mkView false {[ "GameID" := "Invalid game ID" ]}
      /\ pushes (trace (onSubmit scenario (submit (js "QQQQQ")) initialView)) = []).
Proof.
  split.
  - destruct (onSubmit_reports_invalid_game scenario (submit (js "ZZZZZ"))
                initialView eq_refl eq_refl) as (Hw & Hp & _).
    split; [exact Hw | exact Hp].
  - destruct (onSubmit_reports_invalid_game scenario (submit (js "QQQQQ"))
                initialView eq_refl eq_refl) as (Hw & Hp & _).
    split; [exact Hw | exact Hp].
Defined.

(** C4: when the input passes validation, on every path (metadata found,
    falsy result, rejection, and a throwing [router.push]) the handler
    returns normally with the loading flag false, and the last thing it
    does is [setIsLoading(false)]; the flag was written exactly twice,
    true and then false. *)
Theorem onSubmit_always_stops_loading env formInput st :
  validateGameID env (submitted_gameID (currentTarget formInput)) = true ->
  completion (onSubmit env formInput st) = Normal tt
  /\ isLoading (view (onSubmit env formInput st)) = false
  /\ last (trace (onSubmit env formInput st)) = Some (ESetIsLoading false)
  /\ loading_writes (trace (onSubmit env formInput st)) = [true; false].
Proof.
  intros Hv. onSubmit_paths env formInput st Hv; repeat split.
Qed.

Lemma onSubmit_always_stops_loading_witness :
  isLoading (view (onSubmit scenario (submit (js "QQQQQ")) initialView)) = false
  /\ last (trace (onSubmit scenario (submit (js "QQQQQ")) initialView))
     = Some (ESetIsLoading false).
Proof.
  destruct (onSubmit_always_stops_loading scenario (submit (js "QQQQQ")) initialView
              eq_refl) as (_ & Hl & Hlast & _).
  split; [exact Hl | exact Hlast].
Defined.

(** C10: when the lookup resolved to a metadata object and the call
    [router.push(path)] itself throws, the exception is caught by the
    handler's own [catch] branch (which logs it), the error map becomes
    [{GameID: "Invalid game ID"}], and the handler still returns normally
    with the loading flag false. *)
Theorem onSubmit_catches_navigation_failure env formInput st md e :
  validateGameID env (submitted_gameID (currentTarget formInput)) = true ->
  getGameMetadata env (submitted_gameID (currentTarget formInput))
    = Resolved (JsObject md) ->
  router_push env (js "/" +:+ game_type md +:+ js "/"
                   +:+ submitted_gameID (currentTarget formInput)) = Some e ->
  completion (onSubmit env formInput st) = Normal tt
  /\ errors (view (onSubmit env formInput st))
     = {[ "GameID" := "Invalid game ID" ]}
  /\ isLoading (view (onSubmit env formInput st)) = false
  /\ EConsoleLog [LError e] ∈ trace (onSubmit env formInput st)
  /\ error_writes (trace (onSubmit env formInput st))
     = [ ∅; {[ "GameID" := "Invalid game ID" ]} ].
Proof.
  intros Hv Hm Hp.
  rewrite (onSubmit_push_throws env formInput st md e Hv Hm Hp).
  repeat split. simpl. set_solver.
Qed.

Lemma onSubmit_catches_navigation_failure_witness :
  getGameMetadata scenario_broken_router (js "ABCDE")
    = Resolved (JsObject (mkMetadata (js "trivia")))
  /\ router_push scenario_broken_router (js "/trivia/ABCDE")
     = Some "navigation failed"
  /\ errors (view (onSubmit scenario_broken_router (submit (js "ABCDE")) initialView))
     = {[ "GameID" := "Invalid game ID" ]}.
Proof.
  split; [reflexivity|]. split; [reflexivity|].
  destruct (onSubmit_catches_navigation_failure scenario_broken_router
              (submit (js "ABCDE")) initialView (mkMetadata (js "trivia"))
              "navigation failed" eq_refl eq_refl eq_refl) as (_ & He & _).
  exact He.
Defined.

(** C6, as the specification words it, fails: on the valid submission
    of ["ABCDE"] no clearing of the error map comes before the loading
    flag is set to true. *)
Lemma onSubmit_clear_before_load_fails :
  validateGameID scenario (submitted_gameID (currentTarget (submit (js "ABCDE"))))
  = true
  /\ clear_load_lookup (js "ABCDE")
       (trace (onSubmit scenario (submit (js "ABCDE")) initialView)) = false
  /\ precedes clears_errors starts_loading
       (trace (onSubmit scenario (submit (js "ABCDE")) initialView)) = false.
Proof. repeat split. Qed.

(** C6 (amended): when the input passes validation, the handler first
    sets the loading flag to true, then clears the error map, then calls
    [getGameMetadata] with the normalised id, once, and is suspended with
    the flag up and the map empty; the map is never cleared before the
    flag is set.  The run starts with exactly these steps. *)
Theorem onSubmit_loads_clears_then_looks_up env formInput st :
  validateGameID env (submitted_gameID (currentTarget formInput)) = true ->
  take 6 (trace (onSubmit env formInput st))
    = [ EPreventDefault;
        EConsoleLog [LString (js "Provided game ID: "
                      +:+ submitted_gameID (currentTarget formInput))];
        ESetIsLoading true;
        ESetErrors ∅;
        EGetGameMetadata (submitted_gameID (currentTarget formInput));
        EAwait (mkView true ∅) ]
  /\ load_clear_lookup (submitted_gameID (currentTarget formInput))
       (trace (onSubmit env formInput st)) = true
  /\ precedes clears_errors starts_loading
       (trace (onSubmit env formInput st)) = false
  /\ lookups (trace (onSubmit env formInput st))
     = [ submitted_gameID (currentTarget formInput) ].
Proof.
  intros Hv.
  onSubmit_paths env formInput st Hv;
    (split; [reflexivity|]);
    generalize (submitted_gameID (currentTarget formInput)); intros g;
    unfold load_clear_lookup; cbn;
    rewrite ?js_eqb_refl; repeat split.
Qed.

Lemma onSubmit_loads_clears_then_looks_up_witness :
  load_clear_lookup (js "ABCDE")
    (trace (onSubmit scenario (submit (js "ABCDE")) initialView)) = true
  /\ lookups (trace (onSubmit scenario (submit (js "ABCDE")) initialView))
     = [ js "ABCDE" ].
Proof.
  destruct (onSubmit_loads_clears_then_looks_up scenario (submit (js "ABCDE"))
              initialView eq_refl) as (_ & Ho & _ & Hl).
  split; [exact Ho | exact Hl].
Defined.

(** C8: the handler never reads the error map it starts from: what it
    does and the error map it leaves are the same whatever the map held
    before, and the map it leaves is exactly the last value it passed to
    [setErrors] (a replacement, not a merge).  A submission that passes
    validation is suspended once, with an empty error map, so no earlier
    error is on display while the lookup is in flight; a submission that
    fails validation is never suspended. *)
Theorem onSubmit_replaces_errors env formInput st :
  (forall st',
     trace (onSubmit env formInput st) = trace (onSubmit env formInput st')
     /\ errors (view (onSubmit env formInput st))
        = errors (view (onSubmit env formInput st')))
  /\ last (error_writes (trace (onSubmit env formInput st)))
     = Some (errors (view (onSubmit env formInput st)))
  /\ inflight (trace (onSubmit env formInput st))
     = (if validateGameID env (submitted_gameID (currentTarget formInput))
        then [ mkView true ∅ ] else []).
Proof.
  destruct (validateGameID env (submitted_gameID (currentTarget formInput)))
    eqn:Hv.
  - split; [intros st'|].
    + onSubmit_paths env formInput st Hv.
      * rewrite (onSubmit_falsy env formInput st' JsNull Hv Hl eq_refl).
        split; reflexivity.
      * rewrite (onSubmit_falsy env formInput st' JsUndefined Hv Hl eq_refl).
        split; reflexivity.
      * rewrite (onSubmit_push_throws env formInput st' md e Hv Hl Hp).
        split; reflexivity.
      * rewrite (onSubmit_found env formInput st' md Hv Hl Hp).
        split; reflexivity.
      * rewrite (onSubmit_rejected env formInput st' e Hv Hl).
        split; reflexivity.
    + onSubmit_paths env formInput st Hv; split; reflexivity.
  - rewrite (onSubmit_malformed env formInput st Hv).
    split; [intros st'|split; reflexivity].
    rewrite (onSubmit_malformed env formInput st' Hv). split; reflexivity.
Qed.

(** A stale error is gone while a later valid submission is in flight,
    and is replaced, not extended, when that submission fails. *)
Example stale_error_is_replaced :
  let stale := mkView false {[ "GameID" := "Game IDs need to be a 5 letter string.";
                                "Other" := "left over" ]} in
  inflight (trace (onSubmit scenario (submit (js "zzzzz")) stale))
    = [ mkView true ∅ ]
  /\ errors (view (onSubmit scenario (submit (js "zzzzz")) stale))
     = {[ "GameID" := "Invalid game ID" ]}
  /\ errors (view (onSubmit scenario (submit (js "abcde")) stale)) = ∅.
Proof. repeat split. Qed.

(* ===================================================================== *)
(** ** Properties of [Providers]                                         *)
(* ===================================================================== *)

(** C5, as the specification words it, fails: the content is not inside
    four scopes with the toast provider second, and the toast provider
    encloses neither the user nor the game provider. *)
Lemma Providers_toast_is_not_a_scope :
  ~ nested_in [HeroUIProvider; ToastProvider; UserProvider; GameProvider]
      tt (Providers tt)
  /\ encloses ToastProvider UserProvider (Providers tt) = false
  /\ encloses ToastProvider GameProvider (Providers tt) = false.
Proof.
  split; [|split; reflexivity].
  unfold nested_in. simpl. intros H. discriminate H.
Qed.

(** C5 (amended): for any children, [Providers] returns them wrapped in
    three nested scopes, theming, then user, then game.  The theming
    element has exactly two children, the toast provider first and the
    user provider second; the toast provider is mounted once, without
    props or children, so it encloses nothing and stands beside, and
    before, the user scope; the user provider's only child is the game
    provider and the game provider's only child is the children. *)
Theorem Providers_nesting (A : Type) (children : A) :
  nested_in [HeroUIProvider; UserProvider; GameProvider]
    children (Providers children)
  /\ root_tag (Providers children) = Some HeroUIProvider
  /\ child_tags HeroUIProvider (Providers children)
     = [ [Some ToastProvider; Some UserProvider] ]
  /\ child_tags UserProvider (Providers children) = [ [Some GameProvider] ]
  /\ children_of GameProvider (Providers children) = [ [Slot children] ]
  /\ elements ToastProvider (Providers children) = [([], [])]
  /\ encloses HeroUIProvider ToastProvider (Providers children) = true
  /\ encloses HeroUIProvider UserProvider (Providers children) = true
  /\ encloses UserProvider GameProvider (Providers children) = true
  /\ (forall c, encloses ToastProvider c (Providers children) = false)
  /\ prop "navigate" (concat (map fst
       (elements HeroUIProvider (Providers children)))) = Some PRouterPush.
Proof.
  repeat split.
Qed.

(* ===================================================================== *)
(** ** Properties of the rendered form                                   *)
(* ===================================================================== *)

Section ComponentLibrary.
(** [disabled c ps]: the component library renders control [c] with
    props [ps] as disabled.  The two rules are HeroUI's. *)
Variable disabled : Component -> Props -> bool.
Hypothesis input_rule :
  forall ps, disabled Input ps = flag "isDisabled" ps.
Hypothesis button_rule :
  forall ps, disabled Button ps = flag "isDisabled" ps || flag "isLoading" ps.

(** C7: the form has one text input and one button; the input is given
    [isDisabled = isLoading] and the button [isLoading = isLoading], so
    both are disabled whenever the loading flag is true and both are
    enabled whenever it is false. *)
Theorem form_disabled_while_loading (v : ViewState) :
  controls disabled Input (JoinGameButton_render v) = [ isLoading v ]
  /\ controls disabled Button (JoinGameButton_render v) = [ isLoading v ]
  /\ map (fun e => prop "isDisabled" (fst e))
       (elements Input (JoinGameButton_render v))
     = [ Some (PBool (isLoading v)) ]
  /\ map (fun e => prop "isLoading" (fst e))
       (elements Button (JoinGameButton_render v))
     = [ Some (PBool (isLoading v)) ].
Proof.
  unfold controls. simpl. rewrite input_rule, button_rule.
  repeat split.
Qed.

End ComponentLibrary.

Lemma form_disabled_while_loading_witness :
  (forall ps, heroui_disabled Input ps = flag "isDisabled" ps)
  /\ (forall ps, heroui_disabled Button ps
                 = flag "isDisabled" ps || flag "isLoading" ps)
  /\ controls heroui_disabled Input (JoinGameButton_render (mkView true ∅))
     = [ true ]
  /\ controls heroui_disabled Button (JoinGameButton_render (mkView true ∅))
     = [ true ]
  /\ controls heroui_disabled Input (JoinGameButton_render (mkView false ∅))
     = [ false ]
  /\ controls heroui_disabled Button (JoinGameButton_render (mkView false ∅))
     = [ false ].
Proof.
  split; [intros ps; reflexivity|]. split; [intros ps; reflexivity|].
  destruct (form_disabled_while_loading heroui_disabled
              (fun ps => eq_refl) (fun ps => eq_refl) (mkView true ∅))
    as (Hi & Hb & _).
  destruct (form_disabled_while_loading heroui_disabled
              (fun ps => eq_refl) (fun ps => eq_refl) (mkView false ∅))
    as (Hi' & Hb' & _).
  repeat split; assumption.
Defined.

(** While a validated submission is in flight the form is rendered with
    both controls disabled; once the handler is done, with both enabled. *)
Lemma form_disabled_in_flight env formInput st :
  validateGameID env (submitted_gameID (currentTarget formInput)) = true ->
  Forall (fun v =>
            controls heroui_disabled Input (JoinGameButton_render v) = [true]
            /\ controls heroui_disabled Button (JoinGameButton_render v) = [true])
         (inflight (trace (onSubmit env formInput st)))
  /\ controls heroui_disabled Input
       (JoinGameButton_render (view (onSubmit env formInput st))) = [false]
  /\ controls heroui_disabled Button
       (JoinGameButton_render (view (onSubmit env formInput st))) = [false].
Proof.
  intros Hv.
  onSubmit_paths env formInput st Hv;
    (split; [repeat constructor | split; reflexivity]).
Qed.

(* ===================================================================== *)
(** ** Properties of the normalisation                                   *)
(* ===================================================================== *)

(** C9: trimming and then upper-casing is idempotent, for every string,
    and the input ["abcde"] gives the lookup key ["ABCDE"]. *)
Theorem normalisation_is_idempotent :
  (forall s, normalise (normalise s) = normalise s)
  /\ (forall s, submitted_gameID [("GameID", EntryString s)] = normalise s)
  /\ normalise (js "abcde") = js "ABCDE"
  /\ submitted_gameID [("GameID", EntryString (js "abcde"))] = js "ABCDE"
  /\ lookups (trace (onSubmit scenario (submit (js "abcde")) initialView))
     = [ js "ABCDE" ].
Proof.
  split; [exact normalise_idempotent|]. repeat split.
Qed.


(* ===================================================================== *)
(** ** The id the handler works with                                     *)
(* ===================================================================== *)

Lemma spaceless_ends_tight l :
  spaceless_ends l = true <-> JsString.tight isWhiteSpace l.
Proof.
  unfold spaceless_ends, JsString.tight, JsString.ink. split.
  - intros H. apply andb_true_iff in H as [Hh Hl]. split; intros c Hc.
    + rewrite Hc in Hh. now apply negb_true_iff in Hh.
    + rewrite Hc in Hl. now apply negb_true_iff in Hl.
  - intros [Hh Hl]. apply andb_true_iff. split.
    + destruct (head l) as [c|]; [|reflexivity].
      now rewrite (Hh c eq_refl).
    + destruct (last l) as [c|]; [|reflexivity].
      now rewrite (Hl c eq_refl).
Qed.

(** Trimming what [normalise] gives changes nothing. *)
Lemma trim_normalise s : trim (normalise s) = normalise s.
Proof.
  apply StringToCodePoints_inj.
  rewrite StringToCodePoints_trim, normalise_unfold.
  apply JsStringFacts.tight_trim, JsStringFacts.toUpperCase_tight;
    [exact unicode_upper_keeps_ink | apply JsStringFacts.trim_tight].
Qed.

Lemma CodePointsToString_app a b :
  CodePointsToString (a ++ b) = CodePointsToString a ++ CodePointsToString b.
Proof. unfold CodePointsToString. apply flat_map_app. Qed.

Lemma CodePointsToString_singles ds :
  CodePointsToString (map Single ds) = ds.
Proof.
  induction ds as [|d ds IH]; [reflexivity|].
  change (d :: CodePointsToString (map Single ds) = d :: ds). now rewrite IH.
Qed.

Lemma surrogate_not_lower u : is_surrogate u = true -> isLowerCase u = false.
Proof.
  intros Hs. destruct (isLowerCase u) eqn:Hl; [|reflexivity].
  apply in_list_eqb in Hl.
  pose proof (proj1 (forallb_forall _ _) lower_letters_plain u Hl) as H.
  cbv beta in H. rewrite Hs in H. discriminate H.
Qed.

Lemma toUpperCase_no_lower cps :
  well_formed cps = true ->
  forallb (fun u => negb (isLowerCase u))
          (CodePointsToString (JsString.toUpperCase toUpper cps)) = true.
Proof.
  induction cps as [|c cps IH]; [reflexivity|]. intros H.
  pose proof (IH (well_formed_tail c cps H)) as Hr.
  unfold JsString.toUpperCase in *. cbn [flat_map].
  rewrite CodePointsToString_app, forallb_app, Hr, andb_true_r.
  destruct c as [u|h l]; cbn [toUpper].
  - rewrite CodePointsToString_singles. apply forallb_forall.
    intros d Hd. now rewrite (upper_unit_no_lower u d Hd).
  - simpl in H. apply andb_true_iff in H as [Hv _].
    apply upper_pair_valid in Hv. apply andb_true_iff in Hv as [Hh Hl].
    simpl. rewrite !surrogate_not_lower; [reflexivity | |];
      unfold is_surrogate; [now rewrite Hl, orb_true_r | now rewrite Hh].
Qed.

Lemma normalise_canonical s : canonical (normalise s) = true.
Proof.
  unfold canonical. apply andb_true_iff. split.
  - apply spaceless_ends_tight. rewrite <- trim_normalise.
    apply JsStringFacts.trim_tight.
  - unfold normalise, toUpperCase.
    apply toUpperCase_no_lower, well_formed_StringToCodePoints.
Qed.

Lemma StringToCodePoints_caseless s :
  caseless s = true -> StringToCodePoints s = map Single s.
Proof.
  induction s as [|u s IH]; [reflexivity|].
  unfold caseless in *. cbn [forallb]. intros H.
  apply andb_true_iff in H as [Hu Hs]. apply andb_true_iff in Hu as [_ Hu].
  apply negb_true_iff in Hu. unfold is_surrogate in Hu.
  apply orb_false_iff in Hu as [Hh _].
  rewrite StringToCodePoints_single; [now rewrite (IH Hs)|].
  destruct s; simpl; [reflexivity | now rewrite Hh].
Qed.

Lemma toUpperCase_caseless s : caseless s = true -> toUpperCase s = s.
Proof.
  intros H. unfold toUpperCase.
  rewrite (StringToCodePoints_caseless s H).
  rewrite <- (CodePointsToString_singles s) at 2. f_equal.
  unfold caseless in H. unfold JsString.toUpperCase.
  induction s as [|u s IH]; [reflexivity|].
  cbn [forallb] in H. apply andb_true_iff in H as [Hu Hs].
  apply andb_true_iff in Hu as [Hu _].
  cbn [map flat_map toUpper]. rewrite (unmapped_upper_unit u Hu), (IH Hs).
  reflexivity.
Qed.

Lemma caseless_normalise s :
  spaceless_ends s = true -> caseless s = true -> normalise s = s.
Proof.
  intros He Hc. unfold normalise, trim.
  rewrite (JsStringFacts.tight_trim isWhiteSpace)
    by (apply spaceless_ends_tight, He).
  apply toUpperCase_caseless, Hc.
Qed.

Lemma normalise_padding p s q :
  all_space p = true -> all_space q = true ->
  normalise (p +:+ s +:+ q) = normalise s.
Proof.
  intros Hp Hq. unfold normalise, trim, jsapp.
  now rewrite (JsStringLaws.trim_padding isWhiteSpace _ _ _ Hp Hq).
Qed.

Lemma normalise_case s1 s2 :
  toUpperCase s1 = toUpperCase s2 -> normalise s1 = normalise s2.
Proof.
  intros H.
  assert (G : forall s, StringToCodePoints (normalise s)
                = JsString.trim isWhiteSpaceCP
                    (StringToCodePoints (toUpperCase s))).
  { intros s. rewrite normalise_unfold, toUpperCase_unfold.
    apply (JsStringLaws.trim_upper isWhiteSpaceCP toUpper _
             unicode_upper_fixes_space unicode_upper_keeps_ink). }
  apply StringToCodePoints_inj. now rewrite !G, H.
Qed.

(** What the handler reads from the form is [""] when the field is
    absent, and the normalised text of the first [GameID] entry
    otherwise. *)
Lemma submitted_gameID_canonical fd : canonical (submitted_gameID fd) = true.
Proof.
  unfold submitted_gameID. destruct (FormData_get "GameID" fd) as [v|].
  - apply (normalise_canonical (entry_toString v)).
  - reflexivity.
Qed.

Lemma normalise_blank s : all_space s = true -> normalise s = js "".
Proof.
  intros H. unfold normalise, trim, JsString.trim.
  now rewrite (JsStringLaws.trimStart_blank isWhiteSpace _ H).
Qed.

Lemma FormData_get_first name pre v post :
  FormData_get name pre = None ->
  FormData_get name (pre ++ (name, v) :: post) = Some v.
Proof.
  induction pre as [|[k w] pre IH]; simpl.
  - now rewrite String.eqb_refl.
  - destruct (String.eqb k name); [discriminate | exact IH].
Qed.

(** The lookups of a run, in closed form. *)
Lemma onSubmit_lookups env formInput st :
  lookups (trace (onSubmit env formInput st))
  = if validateGameID env (submitted_gameID (currentTarget formInput))
    then [ submitted_gameID (currentTarget formInput) ] else [].
Proof.
  destruct (validateGameID env (submitted_gameID (currentTarget formInput)))
    eqn:Hv.
  - onSubmit_paths env formInput st Hv; reflexivity.
  - rewrite (onSubmit_malformed env formInput st Hv). reflexivity.
Qed.

(** The handler looks at the form only through the id it reads. *)
Lemma onSubmit_by_gameID env fd1 fd2 st :
  submitted_gameID fd1 = submitted_gameID fd2 ->
  onSubmit env (mkFormEvent fd1) st = onSubmit env (mkFormEvent fd2) st.
Proof.
  intros H. unfold onSubmit. cbv zeta. cbn [currentTarget].
  rewrite H. reflexivity.
Qed.

(** The error map a run leaves is one of three. *)
Lemma onSubmit_replaces_errors_final env formInput st :
  errors (view (onSubmit env formInput st)) = ∅
  \/ errors (view (onSubmit env formInput st)) = shape_error
  \/ errors (view (onSubmit env formInput st)) = invalid_error.
Proof.
  destruct (validateGameID env (submitted_gameID (currentTarget formInput)))
    eqn:Hv.
  - onSubmit_paths env formInput st Hv; auto.
  - rewrite (onSubmit_malformed env formInput st Hv). auto.
Qed.
(* ===================================================================== *)
(** ** Further properties of the handler                                 *)
(* ===================================================================== *)

(** X1: given that [validateGameID] returns and the lookup settles,
    the handler returns normally whatever the form holds, whether
    validation passes or fails, whether the lookup resolves or is
    rejected and whether [router.push] returns or throws: what the
    lookup or the router throws never leaves the handler.  The first
    thing it does, once, is [preventDefault]. *)
Theorem onSubmit_never_throws env formInput st :
  completion (onSubmit env formInput st) = Normal tt
  /\ head (trace (onSubmit env formInput st)) = Some EPreventDefault
  /\ omap (fun e => match e with EPreventDefault => Some tt | _ => None end)
       (trace (onSubmit env formInput st)) = [tt].
Proof.
  destruct (validateGameID env (submitted_gameID (currentTarget formInput)))
    eqn:Hv.
  - onSubmit_paths env formInput st Hv; repeat split.
  - rewrite (onSubmit_malformed env formInput st Hv). repeat split.
Qed.

(** X2: [router.push] is called only for an id that passed validation
    and whose lookup resolved to a metadata object, then once, with
    [/{game_type}/{gameID}]; in every other case there is no navigation
    at all. *)
Theorem onSubmit_navigates_only_with_metadata env formInput st :
  pushes (trace (onSubmit env formInput st))
  = if validateGameID env (submitted_gameID (currentTarget formInput))
    then match getGameMetadata env
                 (submitted_gameID (currentTarget formInput)) with
         | Resolved (JsObject md) =>
             [ js "/" +:+ game_type md +:+ js "/"
               +:+ submitted_gameID (currentTarget formInput) ]
         | _ => []
         end
    else [].
Proof.
  destruct (validateGameID env (submitted_gameID (currentTarget formInput)))
    eqn:Hv.
  - onSubmit_paths env formInput st Hv; reflexivity.
  - rewrite (onSubmit_malformed env formInput st Hv). reflexivity.
Qed.

Lemma render_shows_view v :
  displayed_errors (JoinGameButton_render v) = [ errors v ]
  /\ input_names (JoinGameButton_render v) = [ "GameID" ].
Proof. split; reflexivity. Qed.

Ltac pick_error :=
  match goal with
  | |- ∅ = _ \/ _ => left; reflexivity
  | |- shape_error = _ \/ _ => right; left; reflexivity
  | |- invalid_error = _ \/ _ => right; right; reflexivity
  end.

(** X3: every map the handler passes to [setErrors] is empty or one of
    the two fixed messages under the key [GameID] (the exception caught
    is never shown), and every key of the error map it leaves is the
    [name] of an input of the form that displays it. *)
Theorem onSubmit_errors_are_fixed_and_keyed env formInput st :
  Forall (fun m => m = ∅
                   \/ m = {[ "GameID" := "Game IDs need to be a 5 letter string." ]}
                   \/ m = {[ "GameID" := "Invalid game ID" ]})
         (error_writes (trace (onSubmit env formInput st)))
  /\ displayed_errors (JoinGameButton_render (view (onSubmit env formInput st)))
     = [ errors (view (onSubmit env formInput st)) ]
  /\ dom (errors (view (onSubmit env formInput st)))
     ⊆@{gset string}
     list_to_set
       (input_names (JoinGameButton_render (view (onSubmit env formInput st)))).
Proof.
  destruct (render_shows_view (view (onSubmit env formInput st))) as [-> ->].
  split; [|split; [reflexivity|]].
  - destruct (validateGameID env (submitted_gameID (currentTarget formInput)))
      eqn:Hv.
    + onSubmit_paths env formInput st Hv;
        unfold error_writes; simpl;
        repeat (apply List.Forall_cons; [pick_error|]); apply List.Forall_nil.
    + rewrite (onSubmit_malformed env formInput st Hv).
      unfold error_writes; simpl.
      apply List.Forall_cons; [pick_error | apply List.Forall_nil].
  - destruct (onSubmit_replaces_errors_final env formInput st)
      as [-> | [-> | ->]].
    + rewrite dom_empty_L. set_solver.
    + unfold shape_error. rewrite dom_singleton_L. set_solver.
    + unfold invalid_error. rewrite dom_singleton_L. set_solver.
Qed.

(** A submission made while the loading flag is down leaves it down. *)
Lemma onSubmit_idle env formInput st :
  isLoading st = false ->
  view (onSubmit env formInput st) = view (onSubmit env formInput initialView).
Proof.
  intros Hi.
  destruct (validateGameID env (submitted_gameID (currentTarget formInput)))
    eqn:Hv.
  - onSubmit_paths env formInput st Hv.
    + now rewrite (onSubmit_falsy env formInput initialView JsNull Hv Hl eq_refl).
    + now rewrite (onSubmit_falsy env formInput initialView JsUndefined Hv Hl
                     eq_refl).
    + now rewrite (onSubmit_push_throws env formInput initialView md e Hv Hl Hp).
    + now rewrite (onSubmit_found env formInput initialView md Hv Hl Hp).
    + now rewrite (onSubmit_rejected env formInput initialView e Hv Hl).
  - rewrite !(onSubmit_malformed env formInput _ Hv).
    unfold view. simpl. now rewrite Hi.
Qed.

Lemma onSubmit_stays_idle env formInput st :
  isLoading st = false -> isLoading (view (onSubmit env formInput st)) = false.
Proof.
  intros Hi.
  destruct (validateGameID env (submitted_gameID (currentTarget formInput)))
    eqn:Hv.
  - onSubmit_paths env formInput st Hv; reflexivity.
  - rewrite (onSubmit_malformed env formInput st Hv). exact Hi.
Qed.

(** X4: submissions made one after another on a form that starts with
    the loading flag down leave it down, and what the form holds after
    the last one is what that submission alone gives on a fresh form:
    nothing of the earlier submissions is left. *)
Theorem submit_all_keeps_no_history subs env formInput st :
  isLoading st = false ->
  isLoading (submit_all subs st) = false
  /\ submit_all (subs ++ [(env, formInput)]) st
     = view (onSubmit env formInput initialView).
Proof.
  revert st. induction subs as [|[env' ev'] subs IH]; intros st Hi.
  - split; [exact Hi|]. simpl. apply onSubmit_idle, Hi.
  - simpl. apply IH, onSubmit_stays_idle, Hi.
Qed.

Lemma submit_all_keeps_no_history_witness :
  isLoading (submit_all [(scenario, submit (js "abc1")); (scenario, submit (js "zzzzz"))]
               initialView) = false
  /\ submit_all ([(scenario, submit (js "abc1")); (scenario, submit (js "zzzzz"))]
                 ++ [(scenario, submit (js "abcde"))]) initialView
     = mkView false ∅.
Proof.
  exact (submit_all_keeps_no_history
           [(scenario, submit (js "abc1")); (scenario, submit (js "zzzzz"))]
           scenario (submit (js "abcde")) initialView eq_refl).
Defined.

(** X5: the id the handler validates, looks up and navigates with never
    starts or ends with white space (that of [trim]: no-break space,
    line separators and the like included) and holds no letter in
    [a-z], for any form (a missing field and a file entry included); so
    every id that reaches [getGameMetadata] has that shape. *)
Theorem gameID_is_canonical env formInput st :
  canonical (submitted_gameID (currentTarget formInput)) = true
  /\ forallb canonical (lookups (trace (onSubmit env formInput st))) = true.
Proof.
  split; [apply submitted_gameID_canonical|].
  rewrite onSubmit_lookups.
  destruct (validateGameID env (submitted_gameID (currentTarget formInput)));
    [|reflexivity].
  cbn [forallb]. rewrite submitted_gameID_canonical. reflexivity.
Qed.

(** X6: white space typed before or after the id makes no difference to
    anything the handler does. *)
Theorem onSubmit_ignores_padding env st p s q :
  all_space p = true -> all_space q = true ->
  onSubmit env (submit (p +:+ s +:+ q)) st = onSubmit env (submit s) st.
Proof.
  intros Hp Hq. apply onSubmit_by_gameID.
  change (normalise (p +:+ s +:+ q) = normalise s).
  apply normalise_padding; assumption.
Qed.

Lemma onSubmit_ignores_padding_witness :
  onSubmit scenario (submit ([160; 32]%N +:+ js "abcde" +:+ [8232]%N))
    initialView
  = onSubmit scenario (submit (js "abcde")) initialView.
Proof.
  exact (onSubmit_ignores_padding scenario initialView [160; 32]%N
           (js "abcde") [8232]%N eq_refl eq_refl).
Defined.

(** X7: two texts with the same upper-casing are handled alike: letter
    case makes no difference to anything the handler does. *)
Theorem onSubmit_ignores_case env st s1 s2 :
  toUpperCase s1 = toUpperCase s2 ->
  onSubmit env (submit s1) st = onSubmit env (submit s2) st.
Proof.
  intros H. apply onSubmit_by_gameID.
  change (normalise s1 = normalise s2). apply normalise_case, H.
Qed.

Lemma onSubmit_ignores_case_witness :
  onSubmit scenario (submit (js "aBcDe")) initialView
  = onSubmit scenario (submit (js "AbCdE")) initialView
  /\ onSubmit scenario (submit [223; 233]%N) initialView
     = onSubmit scenario (submit [83; 83; 201]%N) initialView.
Proof.
  split.
  - exact (onSubmit_ignores_case scenario initialView (js "aBcDe")
             (js "AbCdE") eq_refl).
  - exact (onSubmit_ignores_case scenario initialView [223; 233]%N
             [83; 83; 201]%N eq_refl).
Defined.

(** X8: a text with no white space at either end and no code unit
    that is a surrogate or has an upper-case mapping (upper-case
    letters and digits, for one) is used as it is: when it passes
    validation, the lookup is called with exactly the text typed. *)
Theorem onSubmit_keeps_caseless_id env st s :
  spaceless_ends s = true ->
  caseless s = true ->
  validateGameID env s = true ->
  submitted_gameID (currentTarget (submit s)) = s
  /\ lookups (trace (onSubmit env (submit s) st)) = [ s ].
Proof.
  intros He Hc Hv.
  assert (E : submitted_gameID (currentTarget (submit s)) = s)
    by (change (normalise s = s); apply caseless_normalise; assumption).
  split; [exact E|].
  rewrite onSubmit_lookups, E, Hv. reflexivity.
Qed.

Lemma onSubmit_keeps_caseless_id_witness :
  lookups (trace (onSubmit scenario (submit (js "QQQQQ")) initialView))
  = [ js "QQQQQ" ].
Proof.
  exact (proj2 (onSubmit_keeps_caseless_id scenario initialView (js "QQQQQ")
                  eq_refl eq_refl eq_refl)).
Defined.

(** X9: a form without a [GameID] entry, and a form whose first
    [GameID] entry is a text made of white space only, are handled
    exactly like the empty text: the id is the empty string. *)
Theorem onSubmit_blank_or_missing env st fd :
  (FormData_get "GameID" fd = None
   \/ exists s, FormData_get "GameID" fd = Some (EntryString s)
                /\ all_space s = true) ->
  submitted_gameID fd = js ""
  /\ onSubmit env (mkFormEvent fd) st = onSubmit env (submit (js "")) st.
Proof.
  intros H.
  assert (E : submitted_gameID fd = js "").
  { unfold submitted_gameID. destruct H as [-> | (s & -> & Hs)];
      [reflexivity | apply (normalise_blank s Hs)]. }
  split; [exact E|]. apply onSubmit_by_gameID. rewrite E. reflexivity.
Qed.

Lemma onSubmit_blank_or_missing_witness :
  onSubmit scenario (mkFormEvent [("Other", EntryString (js "abcde"))]) initialView
  = onSubmit scenario (submit (js "")) initialView
  /\ onSubmit scenario (submit [32; 160; 12288]%N) initialView
     = onSubmit scenario (submit (js "")) initialView.
Proof.
  split.
  - exact (proj2 (onSubmit_blank_or_missing scenario initialView
                    [("Other", EntryString (js "abcde"))] (or_introl eq_refl))).
  - exact (proj2 (onSubmit_blank_or_missing scenario initialView
                    [("GameID", EntryString [32; 160; 12288]%N)]
                    (or_intror (ex_intro _ [32; 160; 12288]%N
                                  (conj eq_refl eq_refl))))).
Defined.

(** X10: only the first [GameID] entry of the form counts: entries of
    other names before it, and anything after it (a second [GameID]
    included), change nothing of what the handler does. *)
Theorem onSubmit_reads_first_GameID env st pre s post :
  FormData_get "GameID" pre = None ->
  onSubmit env (mkFormEvent (pre ++ ("GameID", EntryString s) :: post)) st
  = onSubmit env (submit s) st.
Proof.
  intros H. apply onSubmit_by_gameID. unfold submitted_gameID.
  rewrite (FormData_get_first "GameID" pre (EntryString s) post H).
  reflexivity.
Qed.

Lemma onSubmit_reads_first_GameID_witness :
  onSubmit scenario
    (mkFormEvent ([("Other", EntryString (js "zzzzz"))]
                  ++ ("GameID", EntryString (js "abcde"))
                  :: [("GameID", EntryString (js "qqqqq"))])) initialView
  = onSubmit scenario (submit (js "abcde")) initialView.
Proof.
  exact (onSubmit_reads_first_GameID scenario initialView
           [("Other", EntryString (js "zzzzz"))] (js "abcde")
           [("GameID", EntryString (js "qqqqq"))] eq_refl).
Defined.

(** X11: while a validated submission waits for the lookup, the form is
    rendered with [isDisabled] true on the input, [isLoading] true on
    the button and no error; when the handler is done, both props are
    false again. *)
Theorem form_props_in_flight env formInput st :
  validateGameID env (submitted_gameID (currentTarget formInput)) = true ->
  map (fun v => (input_isDisabled (JoinGameButton_render v),
                 button_isLoading (JoinGameButton_render v),
                 displayed_errors (JoinGameButton_render v)))
      (inflight (trace (onSubmit env formInput st)))
  = [ ([Some (PBool true)], [Some (PBool true)], [∅]) ]
  /\ input_isDisabled
       (JoinGameButton_render (view (onSubmit env formInput st)))
     = [ Some (PBool false) ]
  /\ button_isLoading
       (JoinGameButton_render (view (onSubmit env formInput st)))
     = [ Some (PBool false) ].
Proof.
  intros Hv. onSubmit_paths env formInput st Hv; repeat split.
Qed.

Lemma form_props_in_flight_witness :
  input_isDisabled
    (JoinGameButton_render
       (view (onSubmit scenario (submit (js "ABCDE")) initialView)))
  = [ Some (PBool false) ]
  /\ inflight (trace (onSubmit scenario (submit (js "ABCDE")) initialView))
     = [ mkView true ∅ ].
Proof.
  split; [|reflexivity].
  exact (proj1 (proj2 (form_props_in_flight scenario (submit (js "ABCDE"))
                         initialView eq_refl))).
Defined.

(** X12: the input the form renders carries the name the handler
    reads.  Rendered with the loading flag down, a text typed in the
    input reaches the handler and its id is that text trimmed and
    upper-cased; rendered with the flag up, the input is disabled, the
    form data has no [GameID] entry and the id is the empty string. *)
Theorem rendered_input_feeds_handler (v : ViewState) (text : list N) :
  submitted_gameID (form_entries (JoinGameButton_render v) text)
  = (if isLoading v then js "" else normalise text)
  /\ (forall env st,
        onSubmit env (mkFormEvent (form_entries (JoinGameButton_render v) text))
          st
        = onSubmit env (submit (if isLoading v then js "" else text)) st).
Proof.
  destruct v as [[] errs]; split; try reflexivity; intros env st;
    apply onSubmit_by_gameID; reflexivity.
Qed.
